(** * importarPropriedades.js: bulk creation of HubSpot properties from a CSV

    A shallow embedding of [importarPropriedades.js] and the properties of
    its row handler, its submitter, its report writer and its event loop.

    - [JS]       the part of the JavaScript runtime the script relies on:
                 strings as sequences of UTF-16 code units, truthiness,
                 property lookup through the prototype chain;
    - the script itself, definition by definition, and its event loop;
    - the theorems, one group per function of the script. *)

From Stdlib Require Import String Ascii.
From Stdlib Require Import List NArith ZArith Bool Lia Arith.
Import ListNotations.

(* ================================================================== *)
(** ** The JavaScript runtime *)
(* ================================================================== *)

Module JS.

(** A JavaScript string is a sequence of 16-bit code units. *)
Definition jsstring := list N.

(** *** Literals

    The source file is UTF-8; a literal of the script is read here as the
    same UTF-8 text and turned into its UTF-16 code units. *)

Fixpoint utf8_decode (bs : list N) (pending : nat) (acc : N) : list N :=
  match bs with
  | [] => []
  | b :: rest =>
      match pending with
      | O =>
          if (b <? 128)%N then b :: utf8_decode rest 0 0%N
          else if (b <? 224)%N then utf8_decode rest 1 (b - 192)%N
          else if (b <? 240)%N then utf8_decode rest 2 (b - 224)%N
          else utf8_decode rest 3 (b - 240)%N
      | S k =>
          let acc' := (acc * 64 + (b - 128))%N in
          match k with
          | O => acc' :: utf8_decode rest 0 0%N
          | S _ => utf8_decode rest k acc'
          end
      end
  end.

Definition utf16_encode (cp : N) : list N :=
  if (cp <? 65536)%N then [cp]
  else let v := (cp - 65536)%N in
       [(55296 + v / 1024)%N; (56320 + v mod 1024)%N].

Definition utf16 (s : string) : jsstring :=
  flat_map utf16_encode
    (utf8_decode (map N_of_ascii (list_ascii_of_string s)) 0 0%N).

(** *** Strict equality on strings, and string concatenation *)

Fixpoint eqb (a b : jsstring) : bool :=
  match a, b with
  | [], [] => true
  | x :: a', y :: b' => (x =? y)%N && eqb a' b'
  | _, _ => false
  end.

(** *** [String.prototype.trim]

    WhiteSpace and LineTerminator of ECMAScript: TAB, LF, VT, FF, CR, SP,
    NBSP, U+1680, U+2000..U+200A, LS, PS, U+202F, U+205F, U+3000, ZWNBSP.
    All of them are single code units. *)

Definition isWhiteSpace (c : N) : bool :=
  ((c =? 9) || (c =? 10) || (c =? 11) || (c =? 12) || (c =? 13)
   || (c =? 32) || (c =? 160) || (c =? 5760)
   || ((8192 <=? c) && (c <=? 8202))
   || (c =? 8232) || (c =? 8233) || (c =? 8239) || (c =? 8287)
   || (c =? 12288) || (c =? 65279))%N.

Fixpoint trimStart (s : jsstring) : jsstring :=
  match s with
  | [] => []
  | c :: rest => if isWhiteSpace c then trimStart rest else s
  end.

Definition trimEnd (s : jsstring) : jsstring := rev (trimStart (rev s)).

Definition trim (s : jsstring) : jsstring := trimEnd (trimStart s).

(** *** [charAt], [slice] with one non-negative argument, [split] on a
    separator of one code unit, [replace] of a one-unit global pattern *)

Definition charAt (s : jsstring) (i : nat) : jsstring :=
  match nth_error s i with
  | Some c => [c]
  | None => []
  end.

Definition slice (s : jsstring) (start : nat) : jsstring := skipn start s.

Fixpoint split (s : jsstring) (sep : N) : list jsstring :=
  match s with
  | [] => [[]]
  | c :: rest =>
      if (c =? sep)%N then [] :: split rest sep
      else match split rest sep with
           | piece :: pieces => (c :: piece) :: pieces
           | [] => [[c]]
           end
  end.

Definition replaceAll (s : jsstring) (pat : N) (by_ : N) : jsstring :=
  map (fun c => if (c =? pat)%N then by_ else c) s.

(** *** Case mapping restricted to ASCII

    [toLowerCase] and [toUpperCase] follow the Unicode case tables; the
    script is parameterised by them (module [Script]).  On a string of ASCII
    code units they are the two maps below, and these are the instances
    used to run the script on concrete inputs. *)

Definition isAscii (s : jsstring) : bool := forallb (fun c => (c <? 128)%N) s.

Definition asciiLower (s : jsstring) : jsstring :=
  map (fun c => if ((65 <=? c) && (c <=? 90))%N then (c + 32)%N else c) s.

Definition asciiUpper (s : jsstring) : jsstring :=
  map (fun c => if ((97 <=? c) && (c <=? 122))%N then (c - 32)%N else c) s.

(** *** Values, truthiness, property lookup *)

#[warnings="-register-all"]
Inductive Value : Type :=
| VUndefined
| VNull
| VBool (b : bool)
| VNumber (z : Z)
| VString (s : jsstring)
| VFunction (name : jsstring)
| VArray (items : list Value)
| VObject (props : list (jsstring * Value)).

(** ToBoolean. *)
Definition truthy (v : Value) : bool :=
  match v with
  | VUndefined | VNull => false
  | VBool b => b
  | VNumber z => negb (z =? 0)%Z
  | VString s => negb (eqb s [])
  | VFunction _ | VArray _ | VObject _ => true
  end.

Fixpoint assoc {A : Type} (key : jsstring) (props : list (jsstring * A))
  : option A :=
  match props with
  | [] => None
  | (k, v) :: rest => if eqb k key then Some v else assoc key rest
  end.

(** The properties every object literal inherits from [Object.prototype]. *)
Definition ObjectPrototype : list (jsstring * Value) :=
  (utf16 "constructor", VFunction (utf16 "Object"))
  :: map (fun n => (utf16 n, VFunction (utf16 n)))
       ["__defineGetter__"; "__defineSetter__"; "hasOwnProperty";
        "__lookupGetter__"; "__lookupSetter__"; "isPrototypeOf";
        "propertyIsEnumerable"; "toString"; "valueOf";
        "toLocaleString"]%string.

(** [obj[key]] for an object literal [obj] with own properties [own]: own
    properties first, then the prototype chain, whose [__proto__] accessor
    returns the prototype object itself. *)
Definition Get (own : list (jsstring * Value)) (key : jsstring) : Value :=
  match assoc key own with
  | Some v => v
  | None =>
      match assoc key ObjectPrototype with
      | Some v => v
      | None =>
          if eqb key (utf16 "__proto__") then VObject ObjectPrototype
          else VUndefined
      end
  end.

(** [x || d] and [`${x}`] for a value that is a string or [undefined]. *)
Definition orElse (x : option jsstring) (d : jsstring) : jsstring :=
  match x with
  | Some ((_ :: _) as s) => s
  | _ => d
  end.

Definition show (x : option jsstring) : jsstring :=
  match x with
  | Some s => s
  | None => utf16 "undefined"
  end.

(** [!x] for a value that is a string or [undefined]. *)
Definition falsy (x : option jsstring) : bool :=
  match x with
  | Some (_ :: _) => false
  | _ => true
  end.

End JS.

(* ================================================================== *)
(** ** The script *)
(* ================================================================== *)

Import JS.

(** One record per line of the CSV, keyed by the header row.  A column the
    line does not have is [undefined] ([None]). *)
Module Row.
Record t : Type := {
  objectType : option jsstring;
  name : option jsstring;
  label : option jsstring;
  description : option jsstring;
  groupName : option jsstring;
  type : option jsstring;
  fieldType : option jsstring;
  options : option jsstring
}.
End Row.

Module EnumOption.
Record t : Type := { label : jsstring; value : jsstring }.
End EnumOption.

(** The body of the POST. *)
Module Property.
Record t : Type := {
  name : option jsstring;
  label : option jsstring;
  description : option jsstring;
  groupName : option jsstring;
  type : option jsstring;
  fieldType : option jsstring;
  formField : bool;
  options : option (list EnumOption.t);
  numberDisplayHint : option jsstring
}.
End Property.

(** An entry of [creationResults]. *)
Module Result.
Record t : Type := {
  objectType : jsstring;
  name : option jsstring;
  label : option jsstring;
  status : jsstring;
  errorMessage : jsstring;
  timestamp : jsstring
}.
End Result.

(** What [axios.post] settles with: a response, or an error that carries
    the response when the server answered. *)
Module Axios.
Record Response : Type := { data : Value }.
Record Error : Type := { response : option Response; message : jsstring }.
Inductive Settled : Type :=
| Fulfilled (response : Response)
| Rejected (error : Error).
End Axios.

(** A reading of [new Date()]. *)
Module Date.
Record t : Type := { toLocaleString : jsstring; toISOString : jsstring }.
End Date.

(** The calls made on the [PDFDocument], in order. *)
Inductive TextOptions : Type := NoOptions | AlignCenter | NotContinued.

Inductive DocCall : Type :=
| fontSize (n : nat)
| text (s : jsstring) (opts : TextOptions)
| moveDown (n : nat)
| fillColor (c : jsstring)
| end_.

Record Report : Type := { filename : jsstring; calls : list DocCall }.

(** An [async] function of the script either runs to its end without
    awaiting, leaving a new [creationResults], or stops at
    [await axios.post(url, data, ...)]; [resume] is the rest of its body, run
    when the request settles, at the clock and on the [creationResults] of
    that moment. *)
Inductive Task : Type :=
| Completed (creationResults : list Result.t)
| AwaitPost (url : Value) (data : Property.t)
    (resume : Axios.Settled -> Date.t -> list Result.t -> list Result.t).

Module Script.

Definition BASE_URLS : list (jsstring * Value) :=
  [ (utf16 "contact",
     VString (utf16 "https://api.hubapi.com/properties/v1/contacts/properties"));
    (utf16 "deal",
     VString (utf16 "https://api.hubspot.com/properties/v1/deals/properties"));
    (utf16 "ticket",
     VString (utf16 "https://api.hubspot.com/crm/v3/properties/tickets")) ].

Definition bar : N := 124.   (* '|' *)
Definition colon : N := 58.  (* ':' *)
Definition dot : N := 46.    (* '.' *)
Definition hyphen : N := 45. (* '-' *)
Definition underscore : N := 95. (* '_' *)

Section Runtime.

(** [String.prototype.toLowerCase], [String.prototype.toUpperCase] and
    [JSON.stringify(_, null, 2)] of the runtime. *)
Variable toLowerCase toUpperCase : jsstring -> jsstring.
Variable JSON_stringify : Value -> jsstring.

Definition buildOptions (optionString : jsstring) : list EnumOption.t :=
  map (fun opt =>
         {| EnumOption.label :=
              toUpperCase (charAt (trim opt) 0) ++ slice (trim opt) 1;
            EnumOption.value := toLowerCase (trim opt) |})
      (split optionString bar).

Definition createProperty (objectType : jsstring) (data : Property.t)
  : Task :=
  let url := Get BASE_URLS objectType in
  let status := utf16 "❌ Falha" in
  let errorMessage := [] in
  AwaitPost url data (fun settled now creationResults =>
    let '(status, errorMessage) :=
      match settled with
      | Axios.Fulfilled response => (utf16 "✅ Sucesso", errorMessage)
      | Axios.Rejected error =>
          let body :=
            match Axios.response error with
            | Some r => Axios.data r
            | None => VUndefined
            end in
          (status,
           if truthy body then JSON_stringify body
           else Axios.message error)
      end in
    creationResults ++
      [ {| Result.objectType := objectType;
           Result.name := Property.name data;
           Result.label := Property.label data;
           Result.status := status;
           Result.errorMessage := errorMessage;
           Result.timestamp := Date.toLocaleString now |} ]).

Definition statusColor (result : Result.t) : jsstring :=
  if eqb (Result.status result) (utf16 "✅ Sucesso") then utf16 "green"
  else if eqb (Result.status result) (utf16 "⚠️ Objeto Inválido")
       then utf16 "orange"
       else utf16 "red".

(** The body of the [forEach] callback of [generatePdfReport]. *)
Definition renderResult (result : Result.t) : list DocCall :=
  [ fontSize 11; fillColor (utf16 "black");
    text (utf16 "Objeto: " ++ Result.objectType result) NoOptions;
    text (utf16 "Nome Interno: " ++ show (Result.name result)) NoOptions;
    text (utf16 "Label: " ++ show (Result.label result)) NoOptions;
    text (utf16 "Status: ") NoOptions;
    fillColor (statusColor result);
    text (Result.status result) NotContinued;
    fillColor (utf16 "black") ]
  ++ (if eqb (Result.errorMessage result) [] then []
      else [ text (utf16 "Mensagem de Erro: " ++ Result.errorMessage result)
               NoOptions ])
  ++ [ text (utf16 "Hora: " ++ Result.timestamp result) NoOptions;
       moveDown 1 ].

Definition placeholder : jsstring :=
  utf16 "Nenhuma propriedade foi processada a partir do CSV.".

(** The two readings of the clock in one call (file name, header) are
    taken as one. *)
Definition generatePdfReport (results : list Result.t) (now : Date.t)
  : Report :=
  let timestampForFilename :=
    replaceAll (replaceAll (Date.toISOString now) colon hyphen)
      dot underscore in
  let filename :=
    utf16 "relatorio_importacao_propriedades_" ++ timestampForFilename
      ++ utf16 ".pdf" in
  {| filename := filename;
     calls :=
       [ fontSize 18;
         text (utf16 "Relatório de Importação de Propriedades HubSpot")
           AlignCenter;
         moveDown 1;
         fontSize 10;
         text (utf16 "Data da Execução: " ++ Date.toLocaleString now)
           NoOptions;
         moveDown 1 ]
       ++ (match results with
           | [] => [ fontSize 12; text placeholder AlignCenter ]
           | _ :: _ => flat_map renderResult results
           end)
       ++ [ end_ ] |}.

(** [x?.trim()] *)
Definition trim_opt (x : option jsstring) : option jsstring :=
  option_map trim x.

(** [row.objectType?.trim()?.toLowerCase()] *)
Definition normalizedObjectType (row : Row.t) : option jsstring :=
  option_map toLowerCase (trim_opt (Row.objectType row)).

(** [x === 'lit'] for [x] a string or [undefined]. *)
Definition equals (x : option jsstring) (lit : string) : bool :=
  match x with
  | Some s => eqb s (utf16 lit)
  | None => false
  end.

(** The property object the ['data'] listener builds for a row that passed
    the object-type check (the statements from [const propriedade] to the
    call of [createProperty]). *)
Definition propriedade (row : Row.t) : Property.t :=
  let propertyName := trim_opt (Row.name row) in
  let type := trim_opt (Row.type row) in
  let fieldType := trim_opt (Row.fieldType row) in
  {| Property.name := propertyName;
     Property.label := trim_opt (Row.label row);
     Property.description := trim_opt (Row.description row);
     Property.groupName := trim_opt (Row.groupName row);
     Property.type := type;
     Property.fieldType := fieldType;
     Property.formField := true;
     Property.options :=
       if equals type "enumeration" && negb (falsy (Row.options row))
       then option_map buildOptions (Row.options row)
       else None;
     Property.numberDisplayHint :=
       if equals type "number" && equals fieldType "number"
       then Some (utf16 "number")
       else None |}.

(** The ['data'] listener.  Where the lookup and the call of
    [createProperty] are reached, [objectType] is a non-empty string and
    [orElse objectType []] is that string. *)
Definition onData (row : Row.t) (now : Date.t)
  (creationResults : list Result.t) : Task :=
  let objectType := normalizedObjectType row in
  let propertyName := trim_opt (Row.name row) in
  if falsy objectType
     || negb (truthy (Get BASE_URLS (orElse objectType [])))
  then
    Completed
      (creationResults ++
         [ {| Result.objectType := orElse objectType (utf16 "N/A");
              Result.name := Some (orElse propertyName (utf16 "N/A"));
              Result.label :=
                Some (orElse (trim_opt (Row.label row)) (utf16 "N/A"));
              Result.status := utf16 "⚠️ Objeto Inválido / Linha Ignorada";
              Result.errorMessage :=
                utf16 "Objeto '" ++ show objectType
                  ++ utf16 "' não reconhecido ou linha CSV incompleta.";
              Result.timestamp := Date.toLocaleString now |} ])
  else
    createProperty (orElse objectType []) (propriedade row).

(** The ['end'] listener. *)
Definition onEnd (now : Date.t) (creationResults : list Result.t)
  : list Result.t * Report :=
  (creationResults, generatePdfReport creationResults now).

(** The ['error'] listener. *)
Definition onError (message : jsstring) (now : Date.t)
  (creationResults : list Result.t) : list Result.t * Report :=
  let creationResults :=
    creationResults ++
      [ {| Result.objectType := utf16 "N/A";
           Result.name := Some (utf16 "Erro de Leitura CSV");
           Result.label := Some (utf16 "N/A");
           Result.status := utf16 "❌ Erro Crítico";
           Result.errorMessage :=
             utf16 "Erro ao ler o arquivo CSV: " ++ message;
           Result.timestamp := Date.toLocaleString now |} ] in
  (creationResults, generatePdfReport creationResults now).

(** *** [importarCSV]: the wiring of the streams and the event loop

    [fs.createReadStream(caminhoCSV).pipe(csv())] evaluates to the parser
    stream, so the three [.on] calls of the script register their
    listeners on the parser; the script registers nothing on the file
    stream. *)

Inductive Emitter : Type := ReadStream | CsvParser.

Definition errorListener (e : Emitter)
  : option (jsstring -> Date.t -> list Result.t -> list Result.t * Report) :=
  match e with
  | CsvParser => Some onError
  | ReadStream => None
  end.

(** What the environment does to the process: the parser emits a row or
    its end, a stream emits ['error'], or the request at position [i]
    among those in flight settles.  Each carries the reading of the clock
    at that moment. *)
Inductive Event : Type :=
| EmitData (row : Row.t) (now : Date.t)
| EmitEnd (now : Date.t)
| EmitError (from : Emitter) (message : jsstring) (now : Date.t)
| PostSettled (i : nat) (outcome : Axios.Settled) (now : Date.t).

(** A request in flight together with the suspended rest of the
    [createProperty] call that awaits it. *)
Record Suspended : Type := {
  url : Value;
  data : Property.t;
  resume : Axios.Settled -> Date.t -> list Result.t -> list Result.t
}.

(** [Streaming]: the parser may still emit; [Ended]: it emitted ['end'] or
    ['error'] and will emit nothing more; [Crashed]: an ['error'] event
    found no listener, which Node turns into an uncaught exception that
    terminates the process. *)
Inductive Phase : Type := Streaming | Ended | Crashed.

Record State : Type := {
  creationResults : list Result.t;
  inflight : list Suspended;
  posted : list (Value * Property.t);
  reports : list Report;
  phase : Phase
}.

Definition initial : State :=
  {| creationResults := []; inflight := []; posted := [];
     reports := []; phase := Streaming |}.

Definition removeAt {A : Type} (i : nat) (l : list A) : list A :=
  firstn i l ++ skipn (S i) l.

(** One turn of the event loop; [None] when the event cannot happen in the
    state (a stream emits nothing after its end or error, a dead process
    receives nothing, only a request in flight can settle). *)
Definition step (s : State) (ev : Event) : option State :=
  match phase s, ev with
  | Crashed, _ => None
  | Streaming, EmitData row now =>
      match onData row now (creationResults s) with
      | Completed results' =>
          Some {| creationResults := results';
                  inflight := inflight s;
                  posted := posted s;
                  reports := reports s;
                  phase := Streaming |}
      | AwaitPost u d k =>
          Some {| creationResults := creationResults s;
                  inflight :=
                    inflight s ++ [ {| url := u; data := d; resume := k |} ];
                  posted := posted s ++ [ (u, d) ];
                  reports := reports s;
                  phase := Streaming |}
      end
  | Streaming, EmitEnd now =>
      let '(results', report) := onEnd now (creationResults s) in
      Some {| creationResults := results';
              inflight := inflight s;
              posted := posted s;
              reports := reports s ++ [ report ];
              phase := Ended |}
  | Streaming, EmitError from message now =>
      match errorListener from with
      | Some listener =>
          let '(results', report) :=
            listener message now (creationResults s) in
          Some {| creationResults := results';
                  inflight := inflight s;
                  posted := posted s;
                  reports := reports s ++ [ report ];
                  phase := Ended |}
      | None =>
          Some {| creationResults := creationResults s;
                  inflight := inflight s;
                  posted := posted s;
                  reports := reports s;
                  phase := Crashed |}
      end
  | _, PostSettled i outcome now =>
      match nth_error (inflight s) i with
      | Some p =>
          Some {| creationResults :=
                    resume p outcome now (creationResults s);
                  inflight := removeAt i (inflight s);
                  posted := posted s;
                  reports := reports s;
                  phase := phase s |}
      | None => None
      end
  | Ended, _ => None
  end.

Fixpoint run (s : State) (events : list Event) : option State :=
  match events with
  | [] => Some s
  | ev :: rest =>
      match step s ev with
      | Some s' => run s' rest
      | None => None
      end
  end.

(** [importarCSV(caminhoCSV)] followed by the events the environment
    delivers. *)
Definition importarCSV (events : list Event) : option State :=
  run initial events.

End Runtime.

End Script.

Import Script.

(* ================================================================== *)
(** ** Vocabulary of the statements *)
(* ================================================================== *)

(** [error.response?.data] *)
Definition responseBody (error : Axios.Error) : Value :=
  match Axios.response error with
  | Some r => Axios.data r
  | None => VUndefined
  end.

Definition Sucesso : jsstring := utf16 "✅ Sucesso".
Definition Falha : jsstring := utf16 "❌ Falha".
Definition ObjetoInvalido : jsstring :=
  utf16 "⚠️ Objeto Inválido / Linha Ignorada".
Definition ErroCritico : jsstring := utf16 "❌ Erro Crítico".

Definition knownStatus (r : Result.t) : Prop :=
  Result.status r = Sucesso \/ Result.status r = Falha
  \/ Result.status r = ObjetoInvalido \/ Result.status r = ErroCritico.

(** The three keys of the [BASE_URLS] literal. *)
Definition supported (key : jsstring) : bool :=
  eqb key (utf16 "contact") || eqb key (utf16 "deal")
  || eqb key (utf16 "ticket").

(** The keys [BASE_URLS] answers without having them. *)
Definition inherited (key : jsstring) : bool :=
  existsb (fun kv => eqb (fst kv) key) ObjectPrototype
  || eqb key (utf16 "__proto__").

(** Pieces joined back with the separator between them. *)
Fixpoint join (pieces : list jsstring) (sep : N) : jsstring :=
  match pieces with
  | [] => []
  | [p] => p
  | p :: rest => p ++ sep :: join rest sep
  end.

(** Events of a run, counted. *)
Definition isData (ev : Event) : bool :=
  match ev with EmitData _ _ => true | _ => false end.

Definition isParserError (ev : Event) : bool :=
  match ev with EmitError CsvParser _ _ => true | _ => false end.

Definition rowsEmitted (events : list Event) : nat :=
  length (filter isData events).

Definition parserErrors (events : list Event) : nat :=
  length (filter isParserError events).

(** The status text of a record is written in the colour [statusColor]
    gives it. *)
Definition colouredBy (r : Result.t) : Prop :=
  exists before after,
    renderResult r
    = before
      ++ [fillColor (statusColor r); text (Result.status r) NotContinued]
      ++ after.

(** The colour of a record in the report, as the claim about it reads. *)
Definition greenOrRed (r : Result.t) : Prop :=
  colouredBy r
  /\ (statusColor r = utf16 "green" <-> Result.status r = Sucesso)
  /\ (Result.status r <> Sucesso -> statusColor r = utf16 "red")
  /\ statusColor r <> utf16 "orange".

(** A report that renders results whose status is one of the four the
    script writes. *)
Definition rendersKnown (report : Report) : Prop :=
  exists results now,
    report = generatePdfReport results now /\ Forall knownStatus results.

(** How many ['error'] events the parser may still emit. *)
Definition budget (ph : Phase) : nat :=
  match ph with Streaming => 1 | _ => 0 end.

(** *** Inputs of the examples *)

Definition exampleRow (objectType name label type fieldType : string)
  (options : jsstring) : Row.t :=
  {| Row.objectType := Some (utf16 objectType);
     Row.name := Some (utf16 name);
     Row.label := Some (utf16 label);
     Row.description := Some [];
     Row.groupName := Some (utf16 "informacoes");
     Row.type := Some (utf16 type);
     Row.fieldType := Some (utf16 fieldType);
     Row.options := Some options |}.

(** The three lines of the end-to-end example. *)
Definition rowContact : Row.t :=
  exampleRow "contact" "cor_favorita" "Cor favorita" "string" "text" [].
Definition rowLead : Row.t :=
  exampleRow "lead" "origem" "Origem" "string" "text" [].
Definition rowDeal : Row.t :=
  exampleRow "deal" "confirmado" "Confirmado" "enumeration" "select"
    (utf16 "Yes|No").

(** A line whose object type is a name every object inherits. *)
Definition rowConstructor : Row.t :=
  exampleRow "constructor" "cor_favorita" "Cor favorita" "string" "text" [].

(** An enumeration whose options cell is empty. *)
Definition rowNoOptions : Row.t :=
  exampleRow "deal" "confirmado" "Confirmado" "enumeration" "select" [].

Definition clock (local iso : string) : Date.t :=
  {| Date.toLocaleString := utf16 local; Date.toISOString := utf16 iso |}.

Definition t1 : Date.t := clock "02/11/2026, 10:00:00" "2026-11-02T13:00:00.000Z".
Definition t2 : Date.t := clock "02/11/2026, 10:00:01" "2026-11-02T13:00:01.250Z".
Definition t3 : Date.t := clock "02/11/2026, 10:00:02" "2026-11-02T13:00:02.500Z".

Definition ok : Axios.Settled :=
  Axios.Fulfilled {| Axios.data := VObject [] |}.

(** A 400 answered with the JSON body [false]. *)
Definition rejectedFalse : Axios.Error :=
  {| Axios.response := Some {| Axios.data := VBool false |};
     Axios.message := utf16 "Request failed with status code 400" |}.

(** [JSON.stringify] on the literals [null], [true] and [false], the only
    bodies the examples serialize. *)
Definition stringifyLiteral (v : Value) : jsstring :=
  match v with
  | VNull => utf16 "null"
  | VBool true => utf16 "true"
  | VBool false => utf16 "false"
  | _ => []
  end.

(** The three lines read, then the end of the stream, then the two
    answers. *)
Definition endBeforeAnswers (o1 o3 : Axios.Settled) : list Event :=
  [ EmitData rowContact t1; EmitData rowLead t1; EmitData rowDeal t1;
    EmitEnd t2; PostSettled 0 o1 t3; PostSettled 0 o3 t3 ].

(** The same run with the two answers arriving before the end. *)
Definition answersBeforeEnd (o1 o3 : Axios.Settled) : list Event :=
  [ EmitData rowContact t1; EmitData rowLead t1; EmitData rowDeal t1;
    PostSettled 0 o1 t2; PostSettled 0 o3 t2; EmitEnd t3 ].

Section Vocabulary.

Variable toLowerCase toUpperCase : jsstring -> jsstring.
Variable JSON_stringify : Value -> jsstring.

(** The record [createProperty] pushes in its [finally] block. *)
Definition submitted (objectType : jsstring) (data : Property.t)
  (settled : Axios.Settled) (now : Date.t) : Result.t :=
  {| Result.objectType := objectType;
     Result.name := Property.name data;
     Result.label := Property.label data;
     Result.status :=
       match settled with
       | Axios.Fulfilled _ => Sucesso
       | Axios.Rejected _ => Falha
       end;
     Result.errorMessage :=
       match settled with
       | Axios.Fulfilled _ => []
       | Axios.Rejected error =>
           if truthy (responseBody error)
           then JSON_stringify (responseBody error)
           else Axios.message error
       end;
     Result.timestamp := Date.toLocaleString now |}.

(** A request in flight that a call of [createProperty] is waiting for. *)
Definition awaited (p : Suspended) : Prop :=
  exists objectType,
    forall settled now results,
      resume p settled now results
      = results ++ [submitted objectType (data p) settled now].

(** The key the ['data'] listener looks up, and its verdict on the row. *)
Definition key (row : Row.t) : jsstring :=
  orElse (normalizedObjectType toLowerCase row) [].

Definition accepted (row : Row.t) : bool :=
  negb (falsy (normalizedObjectType toLowerCase row))
  && truthy (Get BASE_URLS (key row)).

(** The record the ['data'] listener pushes for a row it does not accept. *)
Definition ignored (row : Row.t) (now : Date.t) : Result.t :=
  {| Result.objectType :=
       orElse (normalizedObjectType toLowerCase row) (utf16 "N/A");
     Result.name := Some (orElse (trim_opt (Row.name row)) (utf16 "N/A"));
     Result.label := Some (orElse (trim_opt (Row.label row)) (utf16 "N/A"));
     Result.status := ObjetoInvalido;
     Result.errorMessage :=
       utf16 "Objeto '" ++ show (normalizedObjectType toLowerCase row)
         ++ utf16 "' não reconhecido ou linha CSV incompleta.";
     Result.timestamp := Date.toLocaleString now |}.

(** The record the ['error'] listener pushes. *)
Definition critical (message : jsstring) (now : Date.t) : Result.t :=
  {| Result.objectType := utf16 "N/A";
     Result.name := Some (utf16 "Erro de Leitura CSV");
     Result.label := Some (utf16 "N/A");
     Result.status := ErroCritico;
     Result.errorMessage := utf16 "Erro ao ler o arquivo CSV: " ++ message;
     Result.timestamp := Date.toLocaleString now |}.

(** The turns of the event loop, one constructor per way [step] succeeds. *)
Inductive Transition (s : State) : Event -> State -> Prop :=
| T_ignored row now :
    phase s = Streaming ->
    accepted row = false ->
    Transition s (EmitData row now)
      {| creationResults := creationResults s ++ [ignored row now];
         inflight := inflight s;
         posted := posted s;
         reports := reports s;
         phase := Streaming |}
| T_posted row now p :
    phase s = Streaming ->
    accepted row = true ->
    url p = Get BASE_URLS (key row) ->
    data p = propriedade toLowerCase toUpperCase row ->
    (forall settled now' results,
        resume p settled now' results
        = results ++ [submitted (key row) (data p) settled now']) ->
    Transition s (EmitData row now)
      {| creationResults := creationResults s;
         inflight := inflight s ++ [p];
         posted := posted s ++ [(url p, data p)];
         reports := reports s;
         phase := Streaming |}
| T_end now :
    phase s = Streaming ->
    Transition s (EmitEnd now)
      {| creationResults := creationResults s;
         inflight := inflight s;
         posted := posted s;
         reports := reports s ++ [generatePdfReport (creationResults s) now];
         phase := Ended |}
| T_parserError message now :
    phase s = Streaming ->
    Transition s (EmitError CsvParser message now)
      {| creationResults := creationResults s ++ [critical message now];
         inflight := inflight s;
         posted := posted s;
         reports :=
           reports s
           ++ [generatePdfReport
                 (creationResults s ++ [critical message now]) now];
         phase := Ended |}
| T_crash message now :
    phase s = Streaming ->
    Transition s (EmitError ReadStream message now)
      {| creationResults := creationResults s;
         inflight := inflight s;
         posted := posted s;
         reports := reports s;
         phase := Crashed |}
| T_settled i outcome now p objectType :
    phase s <> Crashed ->
    nth_error (inflight s) i = Some p ->
    Transition s (PostSettled i outcome now)
      {| creationResults :=
           creationResults s ++ [submitted objectType (data p) outcome now];
         inflight := removeAt i (inflight s);
         posted := posted s;
         reports := reports s;
         phase := phase s |}.

End Vocabulary.

(** *** Vocabulary of the further properties *)

(** The rows a sequence of events carries, in the order of emission. *)
Definition rowsOf (events : list Event) : list Row.t :=
  flat_map (fun ev => match ev with EmitData row _ => [row] | _ => [] end)
    events.

(** Every request in flight settles, oldest first. *)
Definition settleAll (outcomes : list Axios.Settled) (now : Date.t)
  : list Event :=
  map (fun outcome => PostSettled 0 outcome now) outcomes.

Definition startsWithWhiteSpace (s : jsstring) : bool :=
  match s with
  | c :: _ => isWhiteSpace c
  | [] => false
  end.

Definition endsWithWhiteSpace (s : jsstring) : bool :=
  startsWithWhiteSpace (rev s).

(** [value] is [cell] without the white space around it: both are missing,
    or [value] is what is left of [cell] between a run of white space on
    each side, and neither starts nor ends with white space. *)
Definition strippedOf (cell value : option jsstring) : Prop :=
  match cell, value with
  | None, None => True
  | Some raw, Some v =>
      (exists before after,
          raw = before ++ v ++ after
          /\ forallb isWhiteSpace before = true
          /\ forallb isWhiteSpace after = true)
      /\ startsWithWhiteSpace v = false
      /\ endsWithWhiteSpace v = false
  | _, _ => False
  end.

(** A cell that is missing or holds white space only. *)
Definition blank (cell : option jsstring) : bool :=
  match cell with
  | None => true
  | Some raw => forallb isWhiteSpace raw
  end.

(** The fill colour in force after a sequence of calls. *)
Fixpoint finalColor (current : jsstring) (cs : list DocCall) : jsstring :=
  match cs with
  | [] => current
  | fillColor c :: rest => finalColor c rest
  | _ :: rest => finalColor current rest
  end.

(** The texts written with [{continued: false}], each with the fill colour
    in force when it is written. *)
Fixpoint painted (current : jsstring) (cs : list DocCall)
  : list (jsstring * jsstring) :=
  match cs with
  | [] => []
  | fillColor c :: rest => painted c rest
  | text s NotContinued :: rest => (current, s) :: painted current rest
  | _ :: rest => painted current rest
  end.

(** A new document fills in black. *)
Definition paintedStatuses (cs : list DocCall) : list (jsstring * jsstring) :=
  painted (utf16 "black") cs.

(** The colour the claim gives a status: green for success, red otherwise. *)
Definition greenUnlessFailed (status : jsstring) : jsstring :=
  if eqb status Sucesso then utf16 "green" else utf16 "red".

(** The texts written with [{continued: false}]. *)
Definition statusTexts (cs : list DocCall) : list jsstring :=
  flat_map (fun c => match c with text s NotContinued => [s] | _ => [] end)
    cs.

Fixpoint startsWith (s prefix : jsstring) : bool :=
  match prefix, s with
  | [], _ => true
  | p :: prefix', c :: s' => (c =? p)%N && startsWith s' prefix'
  | _ :: _, [] => false
  end.

(** The lines [Mensagem de Erro: ...] of a document. *)
Definition errorLines (cs : list DocCall) : list jsstring :=
  flat_map
    (fun c =>
       match c with
       | text s NoOptions =>
           if startsWith s (utf16 "Mensagem de Erro: ") then [s] else []
       | _ => []
       end)
    cs.

Section FurtherVocabulary.

Variable toLowerCase toUpperCase : jsstring -> jsstring.

(** The request the listener issues for an accepted row. *)
Definition requestOf (row : Row.t) : Value * Property.t :=
  (Get BASE_URLS (key toLowerCase row),
   propriedade toLowerCase toUpperCase row).

(** The rows among [events] that the listener posts. *)
Definition postedRows (events : list Event) : list Row.t :=
  filter (accepted toLowerCase) (rowsOf events).

(** The verdict of the listener in terms of the key alone. *)
Definition passes (row : Row.t) : bool :=
  negb (falsy (normalizedObjectType toLowerCase row))
  && (supported (key toLowerCase row) || inherited (key toLowerCase row)).

End FurtherVocabulary.

(* ================================================================== *)
(** ** Facts about the runtime *)
(* ================================================================== *)

Lemma eqb_spec (a b : jsstring) : reflect (a = b) (eqb a b).
Proof.
  revert b; induction a as [|x a IH]; intros [|y b]; simpl;
    try (constructor; congruence).
  destruct (N.eqb_spec x y) as [->|Hxy]; simpl.
  - destruct (IH b) as [->|Hab]; constructor; congruence.
  - constructor; congruence.
Qed.

Lemma eqb_eq (a b : jsstring) : eqb a b = true <-> a = b.
Proof. destruct (eqb_spec a b); split; congruence. Qed.

Lemma eqb_refl (a : jsstring) : eqb a a = true.
Proof. apply eqb_eq; reflexivity. Qed.

Lemma eqb_neq (a b : jsstring) : eqb a b = false <-> a <> b.
Proof. destruct (eqb_spec a b); split; congruence. Qed.

Lemma falsy_orElse (x : option jsstring) :
  falsy x = false -> x = Some (orElse x []) /\ orElse x [] <> [].
Proof.
  destruct x as [[|c s]|]; simpl; try discriminate.
  intros _; split; [reflexivity|discriminate].
Qed.

(** *** [split] cuts at every separator and nowhere else *)

Lemma split_nonempty (s : jsstring) (sep : N) : split s sep <> [].
Proof.
  destruct s as [|c s]; simpl; [discriminate|].
  destruct (c =? sep)%N; [discriminate|].
  destruct (split s sep); discriminate.
Qed.

Lemma join_split (s : jsstring) (sep : N) : join (split s sep) sep = s.
Proof.
  induction s as [|c s IH]; [reflexivity|].
  simpl. destruct (N.eqb_spec c sep) as [->|Hc].
  - pose proof (split_nonempty s sep) as Hne.
    simpl. destruct (split s sep) as [|p ps]; [congruence|].
    simpl in *. rewrite IH. reflexivity.
  - pose proof (split_nonempty s sep) as Hne.
    destruct (split s sep) as [|p ps]; [congruence|].
    destruct ps as [|q qs]; simpl in *; rewrite <- IH; reflexivity.
Qed.

Lemma split_length (s : jsstring) (sep : N) :
  length (split s sep) = S (count_occ N.eq_dec s sep).
Proof.
  induction s as [|c s IH]; [reflexivity|].
  simpl. destruct (N.eqb_spec c sep) as [->|Hc].
  - destruct (N.eq_dec sep sep); [|congruence]. simpl. rewrite IH. reflexivity.
  - destruct (N.eq_dec c sep); [congruence|].
    pose proof (split_nonempty s sep) as Hne.
    destruct (split s sep) as [|p ps]; [congruence|]. exact IH.
Qed.

Lemma split_pieces (s : jsstring) (sep : N) :
  Forall (fun piece => ~ In sep piece) (split s sep).
Proof.
  induction s as [|c s IH]; simpl.
  - constructor; [intros []|constructor].
  - destruct (N.eqb_spec c sep) as [->|Hc].
    + constructor; [intros []|exact IH].
    + destruct (split s sep) as [|p ps].
      * constructor; [|constructor]. intros [H|[]]; congruence.
      * inversion IH as [|? ? Hp Hps]; subst.
        constructor; [|exact Hps]. intros [H|H]; [congruence|tauto].
Qed.

Lemma eqb_sym (a b : jsstring) : eqb a b = eqb b a.
Proof.
  destruct (eqb_spec a b) as [->|H]; [symmetry; apply eqb_refl|].
  symmetry; apply eqb_neq; congruence.
Qed.

(** *** What [BASE_URLS[key]] answers *)

Lemma truthy_Get_BASE_URLS (k : jsstring) :
  truthy (Get BASE_URLS k) = supported k || inherited k.
Proof.
  unfold supported, inherited.
  rewrite !(eqb_sym k).
  unfold Get, BASE_URLS, ObjectPrototype.
  cbn [assoc map existsb fst].
  repeat match goal with
         | |- context [eqb ?a k] =>
             destruct (eqb a k); [vm_compute; reflexivity|]
         end.
  rewrite (eqb_sym (utf16 "__proto__") k).
  destruct (eqb k _); reflexivity.
Qed.

Lemma Get_supported (k : jsstring) :
  supported k = true ->
  exists u, Get BASE_URLS k = VString u /\ u <> [].
Proof.
  unfold supported. rewrite !(eqb_sym k).
  unfold Get, BASE_URLS. cbn [assoc].
  repeat match goal with
         | |- context [eqb ?a k] =>
             destruct (eqb a k);
             [intros _; eexists; split; [reflexivity|vm_compute; discriminate]|]
         end.
  discriminate.
Qed.

(* ================================================================== *)
(** ** The submitter and the row handler *)
(* ================================================================== *)

Section Handler.

Variable toLowerCase toUpperCase : jsstring -> jsstring.
Variable JSON_stringify : Value -> jsstring.

Local Abbreviation createProperty := (createProperty JSON_stringify).
Local Abbreviation submitted := (submitted JSON_stringify).
Local Abbreviation propriedade := (propriedade toLowerCase toUpperCase).
Local Abbreviation onData :=
  (onData toLowerCase toUpperCase JSON_stringify).
Local Abbreviation accepted := (accepted toLowerCase).
Local Abbreviation key := (key toLowerCase).
Local Abbreviation ignored := (ignored toLowerCase).
Local Abbreviation step := (step toLowerCase toUpperCase JSON_stringify).
Local Abbreviation run := (run toLowerCase toUpperCase JSON_stringify).
Local Abbreviation Transition :=
  (Transition toLowerCase toUpperCase JSON_stringify).
Local Abbreviation awaited := (awaited JSON_stringify).

Lemma createProperty_resume objectType data :
  exists resume,
    createProperty objectType data
    = AwaitPost (Get BASE_URLS objectType) data resume
    /\ forall settled now results,
         resume settled now results
         = results ++ [submitted objectType data settled now].
Proof.
  eexists; split; [reflexivity|].
  intros [response|error] now results; reflexivity.
Qed.

Lemma onData_ignored row now results :
  accepted row = false ->
  onData row now results = Completed (results ++ [ignored row now]).
Proof.
  unfold accepted, key, Script.onData. intros H.
  replace (falsy (normalizedObjectType toLowerCase row)
           || negb (truthy (Get BASE_URLS
                      (orElse (normalizedObjectType toLowerCase row) []))))
    with true.
  - cbv iota. unfold ignored, ObjetoInvalido. reflexivity.
  - destruct (falsy _); cbn [negb andb orb] in *; [reflexivity|].
    rewrite H; reflexivity.
Qed.

Lemma onData_accepted row now results :
  accepted row = true ->
  onData row now results = createProperty (key row) (propriedade row).
Proof.
  unfold accepted, key, Script.onData. intros H.
  apply andb_prop in H as [H1 H2].
  apply negb_true_iff in H1. rewrite H1, H2. cbn [negb orb].
  cbv iota. reflexivity.
Qed.

(** [step] does what [Transition] says, and nothing else. *)
Lemma step_Transition s ev s' :
  Forall awaited (inflight s) ->
  step s ev = Some s' ->
  Transition s ev s'.
Proof.
  intros Hin. unfold Script.step.
  destruct (phase s) eqn:Hph, ev as [row now|now|from message now|i outcome now];
    try discriminate.
  - destruct (accepted row) eqn:Hacc.
    + rewrite (onData_accepted _ _ _ Hacc).
      destruct (createProperty_resume (key row) (propriedade row))
        as (k & -> & Hk).
      intros [= <-].
      apply T_posted
        with (p := {| url := Get BASE_URLS (key row);
                      data := propriedade row; resume := k |});
        auto.
    + rewrite (onData_ignored _ _ _ Hacc). intros [= <-].
      now constructor.
  - unfold onEnd. intros [= <-]. now constructor.
  - destruct from; simpl; intros [= <-]; now constructor.
  - destruct (nth_error (inflight s) i) as [p|] eqn:Hp; [|discriminate].
    intros [= <-].
    destruct (proj1 (Forall_forall _ _) Hin p (nth_error_In _ _ Hp))
      as (objectType & Hres).
    rewrite Hres. rewrite <- Hph.
    apply T_settled; [congruence|exact Hp].
  - destruct (nth_error (inflight s) i) as [p|] eqn:Hp; [|discriminate].
    intros [= <-].
    destruct (proj1 (Forall_forall _ _) Hin p (nth_error_In _ _ Hp))
      as (objectType & Hres).
    rewrite Hres. rewrite <- Hph.
    apply T_settled; [congruence|exact Hp].
Qed.

End Handler.

(* ================================================================== *)
(** ** The event loop *)
(* ================================================================== *)

Lemma removeAt_length {A : Type} (i : nat) (l : list A) (x : A) :
  nth_error l i = Some x -> S (length (removeAt i l)) = length l.
Proof.
  intros H. unfold removeAt.
  assert (i < length l) by (apply nth_error_Some; congruence).
  rewrite length_app, length_firstn, length_skipn. lia.
Qed.

Lemma removeAt_Forall {A : Type} (P : A -> Prop) (i : nat) (l : list A) :
  Forall P l -> Forall P (removeAt i l).
Proof.
  unfold removeAt. revert l.
  induction i as [|i IH]; intros [|x l] H; cbn; auto.
  - now inversion H.
  - inversion H; subst. constructor; auto.
Qed.

Lemma knownStatus_statusColor (r : Result.t) :
  knownStatus r ->
  statusColor r
  = (if eqb (Result.status r) Sucesso then utf16 "green" else utf16 "red").
Proof.
  unfold statusColor, knownStatus.
  intros [H|[H|[H|H]]]; rewrite H; vm_compute; reflexivity.
Qed.

Section Loop.

Variable toLowerCase toUpperCase : jsstring -> jsstring.
Variable JSON_stringify : Value -> jsstring.

Local Abbreviation submitted := (submitted JSON_stringify).
Local Abbreviation ignored := (ignored toLowerCase).
Local Abbreviation step := (step toLowerCase toUpperCase JSON_stringify).
Local Abbreviation run := (run toLowerCase toUpperCase JSON_stringify).
Local Abbreviation Transition :=
  (Transition toLowerCase toUpperCase JSON_stringify).
Local Abbreviation awaited := (awaited JSON_stringify).

Lemma submitted_known objectType data settled now :
  knownStatus (submitted objectType data settled now).
Proof. destruct settled; [left|right; left]; reflexivity. Qed.

Lemma ignored_known row now : knownStatus (ignored row now).
Proof. right; right; left; reflexivity. Qed.

Lemma critical_known message now : knownStatus (critical message now).
Proof. right; right; right; reflexivity. Qed.

Lemma Transition_awaited s ev s' :
  Transition s ev s' ->
  Forall awaited (inflight s) -> Forall awaited (inflight s').
Proof.
  intros [row now _ _|row now p _ _ _ _ Hres|now _|message now _
         |message now _|i outcome now p objectType _ _] Hin;
    cbn [inflight]; auto.
  - apply Forall_app; split; [exact Hin|].
    constructor; [|constructor]. eexists; exact Hres.
  - now apply removeAt_Forall.
Qed.

(** Induction along a run: a property of states that every turn of the
    loop preserves holds at the end of every run that starts in it. *)
Lemma run_preserves (P : State -> Prop) :
  (forall s ev s',
      Forall awaited (inflight s) -> P s -> Transition s ev s' -> P s') ->
  forall events s s',
    Forall awaited (inflight s) -> P s ->
    run s events = Some s' ->
    P s' /\ Forall awaited (inflight s').
Proof.
  intros Hstep events.
  induction events as [|ev events IH]; intros s s' Hin HP; cbn [Script.run].
  - intros [= <-]; auto.
  - destruct (step s ev) as [s1|] eqn:Hs1; [|discriminate].
    pose proof (step_Transition _ _ _ _ _ _ Hin Hs1) as HT.
    apply IH; [eapply Transition_awaited|eapply Hstep]; eauto.
Qed.

Lemma Transition_known s ev s' :
  Transition s ev s' ->
  Forall knownStatus (creationResults s) ->
  Forall knownStatus (creationResults s').
Proof.
  intros [row now _ _|row now p _ _ _ _ _|now _|message now _
         |message now _|i outcome now p objectType _ _] Hin;
    cbn [creationResults]; auto;
    apply Forall_app; split; auto; constructor; auto.
  - apply ignored_known.
  - apply critical_known.
  - apply submitted_known.
Qed.

Lemma Transition_reports s ev s' :
  Transition s ev s' ->
  Forall knownStatus (creationResults s) ->
  Forall rendersKnown (reports s) ->
  Forall rendersKnown (reports s').
Proof.
  intros [row now _ _|row now p _ _ _ _ _|now _|message now _
         |message now _|i outcome now p objectType _ _] Hk Hr;
    cbn [reports]; auto;
    apply Forall_app; split; auto; constructor; auto.
  - exists (creationResults s), now; auto.
  - eexists _, now; split; [reflexivity|].
    apply Forall_app; split; auto. constructor; auto.
    apply critical_known.
Qed.

Lemma run_known events s :
  run initial events = Some s ->
  Forall knownStatus (creationResults s)
  /\ Forall rendersKnown (reports s).
Proof.
  intros Hrun.
  apply (run_preserves
           (fun s => Forall knownStatus (creationResults s)
                     /\ Forall rendersKnown (reports s)))
    with (events := events) (s := initial) (s' := s) in Hrun.
  - tauto.
  - intros s0 ev s1 _ [Hk Hr] HT. split.
    + eapply Transition_known; eauto.
    + eapply Transition_reports; eauto.
  - constructor.
  - split; constructor.
Qed.

(** *** Counting *)

Lemma Transition_phase s ev s' :
  Transition s ev s' ->
  (if isParserError ev then 1 else 0) + budget (phase s')
  <= budget (phase s).
Proof.
  intros [row now H _|row now p H _ _ _ _|now H|message now H
         |message now H|i outcome now p objectType _ _];
    cbn [phase isParserError budget]; try rewrite H; cbn [budget]; lia.
Qed.

Lemma Transition_count s ev s' :
  Transition s ev s' ->
  length (creationResults s') + length (inflight s')
  = length (creationResults s) + length (inflight s)
    + (if isData ev then 1 else 0) + (if isParserError ev then 1 else 0)
  /\ length (inflight s')
     <= length (inflight s) + (if isData ev then 1 else 0).
Proof.
  intros [row now _ _|row now p _ _ _ _ _|now _|message now _
         |message now _|i outcome now p objectType _ Hp];
    cbn [creationResults inflight isData isParserError];
    rewrite ?length_app; cbn [length]; try lia.
  pose proof (removeAt_length _ _ _ Hp). lia.
Qed.

Lemma run_count events : forall s s',
  Forall awaited (inflight s) ->
  run s events = Some s' ->
  length (creationResults s') + length (inflight s')
  = length (creationResults s) + length (inflight s)
    + rowsEmitted events + parserErrors events
  /\ length (inflight s') <= length (inflight s) + rowsEmitted events
  /\ parserErrors events <= budget (phase s).
Proof.
  unfold rowsEmitted, parserErrors.
  induction events as [|ev events IH]; intros s s' Hin; cbn [Script.run].
  - intros [= <-]. cbn. lia.
  - destruct (step s ev) as [s1|] eqn:Hs1; [|discriminate].
    pose proof (step_Transition _ _ _ _ _ _ Hin Hs1) as HT.
    intros Hrun.
    apply IH in Hrun; [|eapply Transition_awaited; eauto].
    pose proof (Transition_count _ _ _ HT) as Hc.
    pose proof (Transition_phase _ _ _ HT) as Hp.
    cbn [filter].
    destruct (isData ev), (isParserError ev); cbn [length]; lia.
Qed.

End Loop.

Section Forward.

Variable toLowerCase toUpperCase : jsstring -> jsstring.
Variable JSON_stringify : Value -> jsstring.

Local Abbreviation submitted := (submitted JSON_stringify).
Local Abbreviation propriedade := (propriedade toLowerCase toUpperCase).
Local Abbreviation accepted := (accepted toLowerCase).
Local Abbreviation key := (key toLowerCase).
Local Abbreviation ignored := (ignored toLowerCase).
Local Abbreviation step := (step toLowerCase toUpperCase JSON_stringify).
Local Abbreviation run := (run toLowerCase toUpperCase JSON_stringify).

Lemma run_app (a b : list Event) : forall s,
  run s (a ++ b)
  = match run s a with Some s1 => run s1 b | None => None end.
Proof.
  induction a as [|ev a IH]; intros s; cbn [app Script.run]; [reflexivity|].
  destruct (step s ev); [apply IH|reflexivity].
Qed.

Lemma step_ignored s row now :
  phase s = Streaming -> accepted row = false ->
  step s (EmitData row now)
  = Some {| creationResults := creationResults s ++ [ignored row now];
            inflight := inflight s;
            posted := posted s;
            reports := reports s;
            phase := Streaming |}.
Proof.
  intros Hph Hacc. unfold Script.step. rewrite Hph.
  rewrite (onData_ignored _ _ _ _ _ _ Hacc). reflexivity.
Qed.

Lemma step_posted s row now :
  phase s = Streaming -> accepted row = true ->
  exists p,
    step s (EmitData row now)
    = Some {| creationResults := creationResults s;
              inflight := inflight s ++ [p];
              posted := posted s ++ [(url p, data p)];
              reports := reports s;
              phase := Streaming |}
    /\ url p = Get BASE_URLS (key row)
    /\ data p = propriedade row
    /\ forall settled now' results,
         resume p settled now' results
         = results ++ [submitted (key row) (propriedade row) settled now'].
Proof.
  intros Hph Hacc. unfold Script.step. rewrite Hph.
  rewrite (onData_accepted _ _ _ _ _ _ Hacc).
  destruct (createProperty_resume JSON_stringify (key row) (propriedade row))
    as (k & -> & Hk).
  exists {| url := Get BASE_URLS (key row); data := propriedade row;
            resume := k |}.
  repeat split; auto.
Qed.

Lemma step_end s now :
  phase s = Streaming ->
  step s (EmitEnd now)
  = Some {| creationResults := creationResults s;
            inflight := inflight s;
            posted := posted s;
            reports :=
              reports s ++ [generatePdfReport (creationResults s) now];
            phase := Ended |}.
Proof. intros Hph. unfold Script.step. rewrite Hph. reflexivity. Qed.

Lemma step_settled s i outcome now p :
  phase s <> Crashed -> nth_error (inflight s) i = Some p ->
  step s (PostSettled i outcome now)
  = Some {| creationResults := resume p outcome now (creationResults s);
            inflight := removeAt i (inflight s);
            posted := posted s;
            reports := reports s;
            phase := phase s |}.
Proof.
  intros Hph Hp. unfold Script.step. rewrite Hp.
  destruct (phase s); [reflexivity|reflexivity|congruence].
Qed.

Lemma step_crashed s ev : phase s = Crashed -> step s ev = None.
Proof. intros Hph. unfold Script.step. rewrite Hph. reflexivity. Qed.

(** While the parser is still emitting, no report has been written. *)
Lemma streaming_no_report events s :
  run initial events = Some s -> phase s = Streaming -> reports s = [].
Proof.
  intros Hrun.
  apply (run_preserves toLowerCase toUpperCase JSON_stringify
           (fun s => phase s = Streaming -> reports s = []))
    with (events := events) (s := initial) (s' := s) in Hrun.
  - tauto.
  - intros s0 ev s1 _ H0
      [row now H _|row now p H _ _ _ _|now H|message now H
      |message now H|i outcome now p objectType _ _];
      cbn [phase reports]; auto; discriminate.
  - constructor.
  - reflexivity.
Qed.

(** *** Object types written in ASCII *)

Hypothesis toLowerCase_ascii :
  forall s, isAscii s = true -> toLowerCase s = asciiLower s.

Lemma key_ascii row raw :
  Row.objectType row = Some raw -> isAscii (trim raw) = true ->
  key row = asciiLower (trim raw).
Proof.
  intros Hraw Hascii.
  unfold key, normalizedObjectType, trim_opt. rewrite Hraw.
  cbn [option_map]. rewrite (toLowerCase_ascii _ Hascii).
  destruct (asciiLower (trim raw)); reflexivity.
Qed.

Lemma accepted_ascii row raw :
  Row.objectType row = Some raw -> isAscii (trim raw) = true ->
  accepted row
  = negb (eqb (asciiLower (trim raw)) [])
    && truthy (Get BASE_URLS (asciiLower (trim raw))).
Proof.
  intros Hraw Hascii. unfold accepted.
  rewrite (key_ascii _ _ Hraw Hascii).
  unfold normalizedObjectType, trim_opt. rewrite Hraw.
  cbn [option_map]. rewrite (toLowerCase_ascii _ Hascii).
  destruct (asciiLower (trim raw)); reflexivity.
Qed.

End Forward.

(* ================================================================== *)
(** ** The submitter: [createProperty] *)
(* ================================================================== *)

(** C1, as the code has it.  [createProperty] stops at the POST to
    [BASE_URLS[objectType]]; whatever the request settles with, the rest of
    its body returns normally and appends exactly one record to the
    accumulator.  A fulfilled request gives status Success and no message.
    A rejected one gives status Failure, and its message is the serialized
    response body when [error.response?.data] is truthy, the text of the
    exception otherwise (no response, or a body that is [undefined], [null],
    [false], [0] or the empty string). *)
Theorem createProperty_records_outcome
  (JSON_stringify : Value -> jsstring)
  (objectType : jsstring) (data : Property.t) :
  exists resume,
    createProperty JSON_stringify objectType data
    = AwaitPost (Get BASE_URLS objectType) data resume
    /\ forall settled now results,
         exists r,
           resume settled now results = results ++ [r]
           /\ Result.objectType r = objectType
           /\ Result.name r = Property.name data
           /\ Result.label r = Property.label data
           /\ Result.timestamp r = Date.toLocaleString now
           /\ match settled with
              | Axios.Fulfilled _ =>
                  Result.status r = Sucesso /\ Result.errorMessage r = []
              | Axios.Rejected error =>
                  Result.status r = Falha
                  /\ Result.errorMessage r
                     = if truthy (responseBody error)
                       then JSON_stringify (responseBody error)
                       else Axios.message error
              end.
Proof.
  destruct (createProperty_resume JSON_stringify objectType data)
    as (resume & Heq & Hres).
  exists resume; split; [exact Heq|].
  intros settled now results.
  exists (submitted JSON_stringify objectType data settled now).
  rewrite Hres. destruct settled; repeat split.
Qed.

(** C1, as stated, fails when the server answers with a body that is
    present but falsy: for a 400 whose JSON body is [false] the record
    carries the text of the exception, not the serialized body. *)
Lemma createProperty_falsy_body :
  responseBody rejectedFalse = VBool false
  /\ forall resume url data,
       createProperty stringifyLiteral (utf16 "contact")
         (propriedade asciiLower asciiUpper rowContact)
       = AwaitPost url data resume ->
       exists r,
         resume (Axios.Rejected rejectedFalse) t1 [] = [r]
         /\ Result.errorMessage r
            = utf16 "Request failed with status code 400"
         /\ Result.errorMessage r
            <> stringifyLiteral (responseBody rejectedFalse).
Proof.
  split; [reflexivity|].
  intros resume url data [= <- <- <-].
  eexists; split; [reflexivity|].
  split; [reflexivity|]. vm_compute. discriminate.
Qed.

(* ================================================================== *)
(** ** The row handler: validation of the object type *)
(* ================================================================== *)

Section Validation.

Variable toLowerCase toUpperCase : jsstring -> jsstring.
Variable JSON_stringify : Value -> jsstring.

Local Abbreviation createProperty := (createProperty JSON_stringify).
Local Abbreviation propriedade := (propriedade toLowerCase toUpperCase).
Local Abbreviation onData :=
  (onData toLowerCase toUpperCase JSON_stringify).
Local Abbreviation accepted := (accepted toLowerCase).
Local Abbreviation key := (key toLowerCase).
Local Abbreviation ignored := (ignored toLowerCase).
Local Abbreviation normalizedObjectType :=
  (normalizedObjectType toLowerCase).
Local Abbreviation importarCSV :=
  (importarCSV toLowerCase toUpperCase JSON_stringify).

(** The check of the ['data'] listener lets through the three keys of
    [BASE_URLS] and the names [BASE_URLS] inherits. *)
Lemma accepted_iff row :
  accepted row = true
  <-> normalizedObjectType row = Some (key row)
      /\ key row <> []
      /\ (supported (key row) = true \/ inherited (key row) = true).
Proof.
  unfold accepted. rewrite andb_true_iff, negb_true_iff.
  rewrite truthy_Get_BASE_URLS, orb_true_iff.
  split.
  - intros [Hf Hk]. destruct (falsy_orElse _ Hf) as [H1 H2]. auto.
  - intros (Hn & Hne & Hk). split; [|exact Hk].
    rewrite Hn. destruct (key row); [congruence|reflexivity].
Qed.

(** A row that is blank or names neither a supported object kind nor an
    inherited name is recorded as invalid, and nothing is posted. *)
Lemma onData_unknown row now results :
  falsy (normalizedObjectType row) = true
  \/ (supported (key row) = false /\ inherited (key row) = false) ->
  onData row now results = Completed (results ++ [ignored row now])
  /\ Result.status (ignored row now) = ObjetoInvalido.
Proof.
  intros H. split; [|reflexivity].
  apply onData_ignored. unfold accepted.
  rewrite truthy_Get_BASE_URLS.
  destruct H as [->|[-> ->]]; [reflexivity|].
  apply andb_false_r.
Qed.

Hypothesis toLowerCase_ascii :
  forall s, isAscii s = true -> toLowerCase s = asciiLower s.

(** C2 at the row whose object type is [constructor].  The name is not
    one of the three supported kinds, yet [BASE_URLS['constructor']] is the
    inherited function [Object], which is truthy: the row passes the check,
    no invalid-object record is appended, and a POST is issued with that
    function as its URL. *)
Theorem constructor_row_is_posted (now : Date.t) :
  supported (utf16 "constructor") = false
  /\ key rowConstructor = utf16 "constructor"
  /\ Get BASE_URLS (key rowConstructor) = VFunction (utf16 "Object")
  /\ (forall results,
         onData rowConstructor now results
         = createProperty (utf16 "constructor")
             (propriedade rowConstructor))
  /\ exists s,
       importarCSV [EmitData rowConstructor now] = Some s
       /\ creationResults s = []
       /\ posted s
          = [(VFunction (utf16 "Object"), propriedade rowConstructor)].
Proof.
  assert (Hkey : key rowConstructor = utf16 "constructor").
  { rewrite (key_ascii toLowerCase toLowerCase_ascii rowConstructor
               (utf16 "constructor")); reflexivity. }
  assert (Hacc : accepted rowConstructor = true).
  { rewrite (accepted_ascii toLowerCase toLowerCase_ascii rowConstructor
               (utf16 "constructor")); reflexivity. }
  split; [reflexivity|]. split; [exact Hkey|].
  split; [rewrite Hkey; reflexivity|].
  split.
  - intros results. rewrite <- Hkey. now apply onData_accepted.
  - destruct (step_posted toLowerCase toUpperCase JSON_stringify
                initial rowConstructor now eq_refl Hacc)
      as (p & Hstep & Hurl & Hdata & _).
    eexists. unfold Script.importarCSV. cbn [Script.run].
    rewrite Hstep. split; [reflexivity|].
    split; [reflexivity|]. cbn [posted initial app].
    rewrite Hurl, Hdata, Hkey. reflexivity.
Qed.

(** C10.  The listener trims and lowercases [row.objectType] before it
    validates it; an accepted row is looked up, posted and recorded
    under that normalized key; [' Contact '] and ['DEAL'] are accepted as
    [contact] and [deal], with the endpoints of those kinds.  A row that is
    not accepted is recorded under the normalized key too, or under
    ['N/A'] when the key is blank. *)
Theorem objectType_is_normalized (row : Row.t) (now : Date.t)
  (results : list Result.t) :
  normalizedObjectType row
  = option_map (fun raw => toLowerCase (trim raw)) (Row.objectType row)
  /\ (accepted row = true ->
      normalizedObjectType row = Some (key row)
      /\ exists resume,
           onData row now results
           = AwaitPost (Get BASE_URLS (key row)) (propriedade row) resume
           /\ forall settled now' results',
                exists r,
                  resume settled now' results' = results' ++ [r]
                  /\ Result.objectType r = key row)
  /\ (accepted row = false ->
      exists r,
        onData row now results = Completed (results ++ [r])
        /\ Result.objectType r
           = orElse (normalizedObjectType row) (utf16 "N/A"))
  /\ (Row.objectType row = Some (utf16 " Contact ") ->
      accepted row = true /\ key row = utf16 "contact"
      /\ Get BASE_URLS (key row)
         = VString
             (utf16 "https://api.hubapi.com/properties/v1/contacts/properties"))
  /\ (Row.objectType row = Some (utf16 "DEAL") ->
      accepted row = true /\ key row = utf16 "deal"
      /\ Get BASE_URLS (key row)
         = VString
             (utf16 "https://api.hubspot.com/properties/v1/deals/properties")).
Proof.
  split.
  { unfold normalizedObjectType, trim_opt.
    destruct (Row.objectType row); reflexivity. }
  split.
  { intros Hacc. split; [apply accepted_iff; exact Hacc|].
    rewrite (onData_accepted _ _ _ _ _ _ Hacc).
    destruct (createProperty_resume JSON_stringify (key row)
                (propriedade row)) as (k & -> & Hk).
    exists k; split; [reflexivity|].
    intros settled now' results'. eexists; split; [apply Hk|reflexivity]. }
  split.
  { intros Hacc. exists (ignored row now).
    split; [now apply onData_ignored|reflexivity]. }
  split.
  - intros Hraw.
    pose proof (key_ascii toLowerCase toLowerCase_ascii row _ Hraw eq_refl)
      as Hkey.
    pose proof (accepted_ascii toLowerCase toLowerCase_ascii row _ Hraw
                  eq_refl) as Hacc.
    split; [rewrite Hacc; reflexivity|].
    split; [rewrite Hkey; reflexivity|].
    rewrite Hkey; reflexivity.
  - intros Hraw.
    pose proof (key_ascii toLowerCase toLowerCase_ascii row _ Hraw eq_refl)
      as Hkey.
    pose proof (accepted_ascii toLowerCase toLowerCase_ascii row _ Hraw
                  eq_refl) as Hacc.
    split; [rewrite Hacc; reflexivity|].
    split; [rewrite Hkey; reflexivity|].
    rewrite Hkey; reflexivity.
Qed.

End Validation.

(* ================================================================== *)
(** ** The row handler: the property definition *)
(* ================================================================== *)

Section Mapper.

Variable toLowerCase toUpperCase : jsstring -> jsstring.
Variable JSON_stringify : Value -> jsstring.

Local Abbreviation buildOptions := (buildOptions toLowerCase toUpperCase).
Local Abbreviation propriedade := (propriedade toLowerCase toUpperCase).
Local Abbreviation onData :=
  (onData toLowerCase toUpperCase JSON_stringify).
Local Abbreviation accepted := (accepted toLowerCase).
Local Abbreviation key := (key toLowerCase).

(** What the listener posts for a row is [propriedade row], to the
    endpoint of the row's key. *)
Lemma onData_posts row now results u d k :
  onData row now results = AwaitPost u d k ->
  accepted row = true /\ u = Get BASE_URLS (key row) /\ d = propriedade row.
Proof.
  destruct (accepted row) eqn:Hacc.
  - rewrite (onData_accepted _ _ _ _ _ _ Hacc).
    destruct (createProperty_resume JSON_stringify (key row)
                (propriedade row)) as (k' & -> & _).
    intros [= <- <- _]. auto.
  - rewrite (onData_ignored _ _ _ _ _ _ Hacc). discriminate.
Qed.

(** C8.  The definition built for a row carries
    [numberDisplayHint = 'number'] exactly when the trimmed [type] and the
    trimmed [fieldType] both equal [number], and carries no such field
    otherwise; this definition is the body of the POST whenever the
    listener posts. *)
Theorem numberDisplayHint_iff (row : Row.t) :
  (trim_opt (Row.type row) = Some (utf16 "number")
   /\ trim_opt (Row.fieldType row) = Some (utf16 "number") ->
   Property.numberDisplayHint (propriedade row) = Some (utf16 "number"))
  /\ (~ (trim_opt (Row.type row) = Some (utf16 "number")
         /\ trim_opt (Row.fieldType row) = Some (utf16 "number")) ->
      Property.numberDisplayHint (propriedade row) = None)
  /\ (forall now results u d k,
         onData row now results = AwaitPost u d k -> d = propriedade row).
Proof.
  unfold Script.propriedade; cbn [Property.numberDisplayHint].
  split; [|split].
  - intros [-> ->]. reflexivity.
  - intros Hnot.
    destruct (equals (trim_opt (Row.type row)) "number") eqn:Ht;
      [|reflexivity].
    destruct (equals (trim_opt (Row.fieldType row)) "number") eqn:Hf;
      [|reflexivity].
    exfalso; apply Hnot. unfold equals in Ht, Hf.
    destruct (trim_opt (Row.type row)) as [ty|]; [|discriminate].
    destruct (trim_opt (Row.fieldType row)) as [fy|]; [|discriminate].
    apply eqb_eq in Ht, Hf. subst. auto.
  - intros now results u d k H. now apply onData_posts in H.
Qed.

Hypothesis toLowerCase_ascii :
  forall s, isAscii s = true -> toLowerCase s = asciiLower s.
Hypothesis toUpperCase_ascii :
  forall s, isAscii s = true -> toUpperCase s = asciiUpper s.

(** C3, as the code has it.  For a row whose trimmed [type] equals
    [enumeration] and whose [options] cell is not empty, the definition
    carries the parsed options.  Parsing cuts the cell at every [|] and
    nowhere else (a [|] cannot be escaped): the pieces contain no [|],
    joined by [|] they give the cell back, and there is one more piece
    than there are [|]; each piece, trimmed, gives the value lowercased
    and the label with its first code unit uppercased.  ["Yes|No"] gives
    Yes/yes and No/no.  A row with another type, or with an empty or
    missing [options] cell, gets no [options] field. *)
Theorem enumeration_options :
  (forall row cell,
      trim_opt (Row.type row) = Some (utf16 "enumeration") ->
      Row.options row = Some cell -> cell <> [] ->
      Property.options (propriedade row) = Some (buildOptions cell))
  /\ (forall cell,
         buildOptions cell
         = map (fun piece =>
                  {| EnumOption.label :=
                       toUpperCase (charAt (trim piece) 0)
                       ++ slice (trim piece) 1;
                     EnumOption.value := toLowerCase (trim piece) |})
             (split cell bar)
         /\ Forall (fun piece => ~ In bar piece) (split cell bar)
         /\ join (split cell bar) bar = cell
         /\ length (buildOptions cell) = S (count_occ N.eq_dec cell bar))
  /\ buildOptions (utf16 "Yes|No")
     = [ {| EnumOption.label := utf16 "Yes";
            EnumOption.value := utf16 "yes" |};
         {| EnumOption.label := utf16 "No";
            EnumOption.value := utf16 "no" |} ]
  /\ (forall row,
         trim_opt (Row.type row) <> Some (utf16 "enumeration")
         \/ falsy (Row.options row) = true ->
         Property.options (propriedade row) = None).
Proof.
  split; [|split; [|split]].
  - intros row cell Hty Hcell Hne.
    unfold Script.propriedade; cbn [Property.options].
    rewrite Hty, Hcell. unfold equals. rewrite eqb_refl.
    destruct cell; [congruence|reflexivity].
  - intros cell. split; [reflexivity|].
    split; [apply split_pieces|]. split; [apply join_split|].
    unfold Script.buildOptions. rewrite length_map. apply split_length.
  - unfold Script.buildOptions.
    replace (split (utf16 "Yes|No") bar) with [utf16 "Yes"; utf16 "No"]
      by reflexivity.
    cbn [map].
    rewrite !toLowerCase_ascii, !toUpperCase_ascii by reflexivity.
    reflexivity.
  - intros row H.
    unfold Script.propriedade; cbn [Property.options].
    destruct H as [H| ->].
    + destruct (equals (trim_opt (Row.type row)) "enumeration") eqn:He;
        [|reflexivity].
      exfalso; apply H. unfold equals in He.
      destruct (trim_opt (Row.type row)); [|discriminate].
      apply eqb_eq in He. now subst.
    + rewrite andb_false_r. reflexivity.
Qed.

End Mapper.

(** C3, as stated, fails on an enumeration row whose [options] cell is
    empty: the row is accepted and posted, the claim makes its options the
    parse of the empty cell (one option with empty label and value), and the
    definition has no [options] field at all. *)
Lemma enumeration_empty_cell :
  Row.type rowNoOptions = Some (utf16 "enumeration")
  /\ Row.options rowNoOptions = Some []
  /\ accepted asciiLower rowNoOptions = true
  /\ buildOptions asciiLower asciiUpper []
     = [ {| EnumOption.label := []; EnumOption.value := [] |} ]
  /\ Property.options (propriedade asciiLower asciiUpper rowNoOptions)
     <> Some (buildOptions asciiLower asciiUpper []).
Proof. repeat split; vm_compute; discriminate. Qed.

(* ================================================================== *)
(** ** The report writer: [generatePdfReport] *)
(* ================================================================== *)

Lemma renderResult_coloured (r : Result.t) : colouredBy r.
Proof.
  eexists [_; _; _; _; _; _], _. unfold renderResult.
  cbn [app]. reflexivity.
Qed.

Lemma statusTexts_app (a b : list DocCall) :
  statusTexts (a ++ b) = statusTexts a ++ statusTexts b.
Proof. unfold statusTexts. apply flat_map_app. Qed.

Lemma statusTexts_renderResult (r : Result.t) :
  statusTexts (renderResult r) = [Result.status r].
Proof.
  unfold renderResult.
  destruct (eqb (Result.errorMessage r) []); reflexivity.
Qed.

Lemma statusTexts_blocks (results : list Result.t) :
  statusTexts (flat_map renderResult results) = map Result.status results.
Proof.
  induction results as [|r results IH]; [reflexivity|].
  cbn [flat_map map]. rewrite statusTexts_app, statusTexts_renderResult, IH.
  reflexivity.
Qed.

Lemma painted_app (a b : list DocCall) : forall c,
  painted c (a ++ b) = painted c a ++ painted (finalColor c a) b.
Proof.
  induction a as [|x a IH]; intros c; [reflexivity|].
  destruct x as [n|t [| |]|n|c'|]; cbn [app painted finalColor];
    rewrite IH; reflexivity.
Qed.

Lemma finalColor_app (a b : list DocCall) : forall c,
  finalColor c (a ++ b) = finalColor (finalColor c a) b.
Proof.
  induction a as [|x a IH]; intros c; [reflexivity|].
  destruct x; cbn [app finalColor]; apply IH.
Qed.

Lemma painted_renderResult (c : jsstring) (r : Result.t) :
  painted c (renderResult r) = [(statusColor r, Result.status r)]
  /\ finalColor c (renderResult r) = utf16 "black".
Proof.
  unfold renderResult.
  destruct (eqb (Result.errorMessage r) []); split; reflexivity.
Qed.

Lemma painted_blocks (results : list Result.t) : forall c,
  painted c (flat_map renderResult results)
  = map (fun r => (statusColor r, Result.status r)) results.
Proof.
  induction results as [|r results IH]; intros c; [reflexivity|].
  cbn [flat_map map]. rewrite painted_app.
  destruct (painted_renderResult c r) as [-> ->]. rewrite IH. reflexivity.
Qed.

Lemma paintedStatuses_report (results : list Result.t) (now : Date.t) :
  paintedStatuses (calls (generatePdfReport results now))
  = map (fun r => (statusColor r, Result.status r)) results.
Proof.
  unfold paintedStatuses, generatePdfReport; cbn [calls].
  destruct results as [|r results]; [reflexivity|].
  rewrite !painted_app, painted_blocks.
  cbn [painted app]. rewrite app_nil_r. reflexivity.
Qed.

Lemma statusTexts_report (results : list Result.t) (now : Date.t) :
  statusTexts (calls (generatePdfReport results now))
  = map Result.status results.
Proof.
  unfold generatePdfReport; cbn [calls].
  destruct results as [|r results]; [reflexivity|].
  rewrite !statusTexts_app, statusTexts_blocks.
  change (statusTexts [end_]) with (@nil jsstring).
  rewrite app_nil_r. reflexivity.
Qed.

Lemma knownStatus_not_orange (r : Result.t) :
  knownStatus r -> statusColor r <> utf16 "orange".
Proof.
  intros Hr. rewrite (knownStatus_statusColor r Hr).
  destruct (eqb (Result.status r) Sucesso); vm_compute; discriminate.
Qed.

Lemma report_no_orange (results : list Result.t) (now : Date.t) :
  Forall knownStatus results ->
  ~ In (fillColor (utf16 "orange")) (calls (generatePdfReport results now)).
Proof.
  intros Hknown H. unfold generatePdfReport in H; cbn [calls app In] in H.
  destruct H as [H|[H|[H|[H|[H|[H|H]]]]]]; try discriminate H.
  apply in_app_or in H as [H|[H|[]]]; [|discriminate H].
  destruct results as [|r0 results0].
  - cbn [In] in H. destruct H as [H|[H|[]]]; discriminate H.
  - apply in_flat_map in H as (r & Hr & H).
    pose proof (proj1 (Forall_forall _ _) Hknown r Hr) as Hk.
    unfold renderResult in H.
    destruct (eqb (Result.errorMessage r) []); cbn [app In] in H;
      repeat (destruct H as [H|H];
              [first [discriminate H
                     |injection H as H;
                      exact (knownStatus_not_orange r Hk H)]|]);
      exact H.
Qed.

Section ReportWriter.

Variable toLowerCase toUpperCase : jsstring -> jsstring.
Variable JSON_stringify : Value -> jsstring.

Local Abbreviation ignored := (ignored toLowerCase).
Local Abbreviation importarCSV :=
  (importarCSV toLowerCase toUpperCase JSON_stringify).

(** C7.  Over an empty list of results the report is the header, the
    placeholder message centred, and the end of the document: no block of
    a record is written.  A file without rows produces exactly this
    report, and the process ends normally. *)
Theorem empty_report (now : Date.t) :
  calls (generatePdfReport [] now)
  = [ fontSize 18;
      text (utf16 "Relatório de Importação de Propriedades HubSpot")
        AlignCenter;
      moveDown 1;
      fontSize 10;
      text (utf16 "Data da Execução: " ++ Date.toLocaleString now) NoOptions;
      moveDown 1;
      fontSize 12;
      text (utf16 "Nenhuma propriedade foi processada a partir do CSV.")
        AlignCenter;
      end_ ]
  /\ In (text placeholder AlignCenter) (calls (generatePdfReport [] now))
  /\ importarCSV [EmitEnd now]
     = Some {| creationResults := [];
               inflight := [];
               posted := [];
               reports := [generatePdfReport [] now];
               phase := Ended |}.
Proof.
  split; [reflexivity|]. split; [|reflexivity].
  unfold generatePdfReport; cbn [calls app In].
do 7 right. left. reflexivity.
Qed.

(** C9.  In every report of every run, each status text is written in
    the fill colour [statusColor] gives its record: green exactly when the
    status is the success status and red for every other record, the
    invalid-object records included.  No call of a report fills in orange:
    the status the listener writes for an invalid object is not the string
    the report compares with.  The same holds of the report of any records
    whose statuses are among the four the script writes, which is what
    every accumulator of every run holds. *)
Theorem status_colours (events : list Event) (s : State) :
  importarCSV events = Some s ->
  Forall
    (fun report =>
       paintedStatuses (calls report)
       = map (fun status => (greenUnlessFailed status, status))
           (statusTexts (calls report))
       /\ ~ In (fillColor (utf16 "orange")) (calls report)
       /\ exists results now,
            report = generatePdfReport results now
            /\ statusTexts (calls report) = map Result.status results
            /\ Forall greenOrRed results)
    (reports s)
  /\ Forall knownStatus (creationResults s)
  /\ (forall results now,
         Forall knownStatus results ->
         paintedStatuses (calls (generatePdfReport results now))
         = map (fun r =>
                  (greenUnlessFailed (Result.status r), Result.status r))
             results
         /\ ~ In (fillColor (utf16 "orange"))
              (calls (generatePdfReport results now)))
  /\ (forall row now, statusColor (ignored row now) = utf16 "red")
  /\ ObjetoInvalido <> utf16 "⚠️ Objeto Inválido".
Proof.
  intros Hrun.
  destruct (run_known _ _ _ _ _ Hrun) as [Hresults Hreports].
  assert (Hpaint : forall results now,
             Forall knownStatus results ->
             paintedStatuses (calls (generatePdfReport results now))
             = map (fun r =>
                      (greenUnlessFailed (Result.status r), Result.status r))
                 results).
  { intros results now Hknown. rewrite paintedStatuses_report.
    apply map_ext_in. intros r Hr.
    pose proof (proj1 (Forall_forall _ _) Hknown r Hr) as Hk.
    rewrite (knownStatus_statusColor r Hk). reflexivity. }
  split; [|split; [exact Hresults|split;
             [|split; [intros; reflexivity|vm_compute; discriminate]]]].
  - eapply Forall_impl; [|exact Hreports].
    intros report (results & now & -> & Hknown).
    split; [|split].
    + rewrite (Hpaint results now Hknown), statusTexts_report, map_map.
      reflexivity.
    + now apply report_no_orange.
    + exists results, now; split; [reflexivity|].
      split; [apply statusTexts_report|].
      eapply Forall_impl; [|exact Hknown].
      intros r Hr. unfold greenOrRed.
      split; [apply renderResult_coloured|].
      rewrite (knownStatus_statusColor r Hr).
      destruct (eqb_spec (Result.status r) Sucesso) as [He|He].
      * split; [split; auto|]. split; [congruence|].
        vm_compute; discriminate.
      * split.
        -- split; [|intros H; contradiction].
           intros H; exfalso; revert H; vm_compute; discriminate.
        -- split; [reflexivity|]. vm_compute; discriminate.
  - intros results now Hknown. split; [now apply Hpaint|].
    now apply report_no_orange.
Qed.

End ReportWriter.

(* ================================================================== *)
(** ** The run as a whole: [importarCSV] *)
(* ================================================================== *)

Section Run.

Variable toLowerCase toUpperCase : jsstring -> jsstring.
Variable JSON_stringify : Value -> jsstring.

Local Abbreviation submitted := (submitted JSON_stringify).
Local Abbreviation propriedade := (propriedade toLowerCase toUpperCase).
Local Abbreviation accepted := (accepted toLowerCase).
Local Abbreviation key := (key toLowerCase).
Local Abbreviation ignored := (ignored toLowerCase).
Local Abbreviation step := (step toLowerCase toUpperCase JSON_stringify).
Local Abbreviation run := (run toLowerCase toUpperCase JSON_stringify).
Local Abbreviation importarCSV :=
  (importarCSV toLowerCase toUpperCase JSON_stringify).

(** C5.  At every point of every run the accumulator holds one record
    per row whose handling has finished (the rows emitted so far, less
    those whose request is still in flight) and one per ['error'] the
    parser emitted, of which there is at most one. *)
Theorem accumulator_length (events : list Event) (s : State) :
  importarCSV events = Some s ->
  length (creationResults s)
  = (rowsEmitted events - length (inflight s)) + parserErrors events
  /\ length (inflight s) <= rowsEmitted events
  /\ parserErrors events <= 1.
Proof.
  intros Hrun.
  apply run_count in Hrun; [|constructor].
  cbn [initial creationResults inflight phase length budget] in Hrun.
  lia.
Qed.

(** An ['error'] of the parser is recorded and reported. *)
Lemma parser_error_is_reported s message now :
  phase s = Streaming ->
  step s (EmitError CsvParser message now)
  = Some {| creationResults := creationResults s ++ [critical message now];
            inflight := inflight s;
            posted := posted s;
            reports :=
              reports s
              ++ [generatePdfReport
                    (creationResults s ++ [critical message now]) now];
            phase := Ended |}.
Proof. intros Hph. unfold Script.step. rewrite Hph. reflexivity. Qed.

(** C4 at a failure of the file stream.  The script listens for
    ['error'] on the parser only.  When the file stream emits ['error']
    (the file is missing or unreadable) while rows are still being read,
    the process dies: no critical-error record is appended, no report has
    been or will be written, and nothing that was in flight is handled. *)
Theorem read_error_crashes (events : list Event) (s : State)
  (message : jsstring) (now : Date.t) :
  importarCSV events = Some s ->
  phase s = Streaming ->
  exists s',
    importarCSV (events ++ [EmitError ReadStream message now]) = Some s'
    /\ phase s' = Crashed
    /\ creationResults s' = creationResults s
    /\ reports s' = []
    /\ forall later, later <> [] -> run s' later = None.
Proof.
  intros Hrun Hph.
  pose proof (streaming_no_report _ _ _ _ _ Hrun Hph) as Hrep.
  eexists. unfold Script.importarCSV in *. rewrite run_app, Hrun.
  cbn [Script.run]. unfold Script.step. rewrite Hph.
  cbn [errorListener]. split; [reflexivity|].
  cbn [phase creationResults reports]. repeat split; auto.
  intros [|ev later] Hne; [congruence|]. reflexivity.
Qed.

Hypothesis toLowerCase_ascii :
  forall s, isAscii s = true -> toLowerCase s = asciiLower s.

Lemma rowContact_accepted :
  accepted rowContact = true /\ key rowContact = utf16 "contact".
Proof.
  rewrite (accepted_ascii _ toLowerCase_ascii _ (utf16 "contact")),
    (key_ascii _ toLowerCase_ascii _ (utf16 "contact"));
    split; reflexivity.
Qed.

Lemma rowDeal_accepted :
  accepted rowDeal = true /\ key rowDeal = utf16 "deal".
Proof.
  rewrite (accepted_ascii _ toLowerCase_ascii _ (utf16 "deal")),
    (key_ascii _ toLowerCase_ascii _ (utf16 "deal"));
    split; reflexivity.
Qed.

Lemma rowLead_ignored : accepted rowLead = false.
Proof.
  rewrite (accepted_ascii _ toLowerCase_ascii _ (utf16 "lead"));
    reflexivity.
Qed.

(** C6 when the stream ends before the answers arrive.  The three rows
    end up as three records, but the one report of the run was written at
    the end of the stream, when only the invalid row had been recorded: it
    lists that record alone. *)
Theorem report_misses_rows_in_flight (o1 o3 : Axios.Settled) :
  exists s,
    importarCSV (endBeforeAnswers o1 o3) = Some s
    /\ creationResults s
       = [ ignored rowLead t1;
           submitted (utf16 "contact") (propriedade rowContact) o1 t3;
           submitted (utf16 "deal") (propriedade rowDeal) o3 t3 ]
    /\ reports s = [ generatePdfReport [ignored rowLead t1] t2 ].
Proof.
  destruct rowContact_accepted as [Ha1 Hk1].
  destruct rowDeal_accepted as [Ha3 Hk3].
  pose proof rowLead_ignored as Ha2.
  unfold Script.importarCSV, endBeforeAnswers. cbn [Script.run].
  destruct (step_posted toLowerCase toUpperCase JSON_stringify
              initial rowContact t1 eq_refl Ha1)
    as (p1 & -> & _ & _ & Hr1).
  rewrite step_ignored by (reflexivity || exact Ha2).
  match goal with
  | |- context [step ?s (EmitData rowDeal t1)] =>
      destruct (step_posted toLowerCase toUpperCase JSON_stringify
                  s rowDeal t1 eq_refl Ha3)
        as (p3 & -> & _ & _ & Hr3)
  end.
  rewrite step_end by reflexivity.
  rewrite (step_settled _ _ _ _ 0 o1 t3 p1) by (discriminate || reflexivity).
  rewrite (step_settled _ _ _ _ 0 o3 t3 p3) by (discriminate || reflexivity).
  eexists; split; [reflexivity|].
  cbn [creationResults reports initial app].
  rewrite Hr3, Hr1, Hk1, Hk3. split; reflexivity.
Qed.

(** The same file when both answers arrive before the stream ends: the
    report lists the three records. *)
Lemma report_complete_when_answers_come_first (o1 o3 : Axios.Settled) :
  exists s,
    importarCSV (answersBeforeEnd o1 o3) = Some s
    /\ length (creationResults s) = 3
    /\ reports s = [ generatePdfReport (creationResults s) t3 ].
Proof.
  destruct rowContact_accepted as [Ha1 Hk1].
  destruct rowDeal_accepted as [Ha3 Hk3].
  pose proof rowLead_ignored as Ha2.
  unfold Script.importarCSV, answersBeforeEnd. cbn [Script.run].
  destruct (step_posted toLowerCase toUpperCase JSON_stringify
              initial rowContact t1 eq_refl Ha1)
    as (p1 & -> & _ & _ & Hr1).
  rewrite step_ignored by (reflexivity || exact Ha2).
  match goal with
  | |- context [step ?s (EmitData rowDeal t1)] =>
      destruct (step_posted toLowerCase toUpperCase JSON_stringify
                  s rowDeal t1 eq_refl Ha3)
        as (p3 & -> & _ & _ & Hr3)
  end.
  rewrite (step_settled _ _ _ _ 0 o1 t2 p1) by (discriminate || reflexivity).
  rewrite (step_settled _ _ _ _ 0 o3 t2 p3) by (discriminate || reflexivity).
  rewrite step_end by reflexivity.
  eexists; split; [reflexivity|].
  cbn [creationResults reports initial app].
  rewrite Hr3, Hr1. split; reflexivity.
Qed.

End Run.

(* ================================================================== *)
(** ** The theorems at work on concrete inputs *)
(* ================================================================== *)

(** The row [constructor] on the ASCII case maps. *)
Lemma constructor_row_is_posted_witness :
  (forall s, isAscii s = true -> asciiLower s = asciiLower s)
  /\ exists s,
       importarCSV asciiLower asciiUpper stringifyLiteral
         [EmitData rowConstructor t1] = Some s
       /\ creationResults s = []
       /\ posted s
          = [(VFunction (utf16 "Object"),
              propriedade asciiLower asciiUpper rowConstructor)].
Proof.
  split; [reflexivity|].
  exact (proj2 (proj2 (proj2 (proj2
           (constructor_row_is_posted asciiLower asciiUpper stringifyLiteral
              (fun s _ => eq_refl) t1))))).
Defined.

(** A row whose object type is written [" Contact "]. *)
Lemma objectType_is_normalized_witness :
  let row := exampleRow " Contact " "cor_favorita" "Cor favorita"
               "string" "text" [] in
  (forall s, isAscii s = true -> asciiLower s = asciiLower s)
  /\ accepted asciiLower row = true
  /\ key asciiLower row = utf16 "contact"
  /\ Get BASE_URLS (key asciiLower row)
     = VString
         (utf16 "https://api.hubapi.com/properties/v1/contacts/properties").
Proof.
  intros row. split; [reflexivity|].
  exact (proj1 (proj2 (proj2 (proj2
           (objectType_is_normalized asciiLower asciiUpper stringifyLiteral
              (fun s _ => eq_refl) row t1 []))))
         eq_refl).
Defined.

(** The enumeration row of the end-to-end example. *)
Lemma enumeration_options_witness :
  (forall s, isAscii s = true -> asciiLower s = asciiLower s)
  /\ (forall s, isAscii s = true -> asciiUpper s = asciiUpper s)
  /\ Property.options (propriedade asciiLower asciiUpper rowDeal)
     = Some (buildOptions asciiLower asciiUpper (utf16 "Yes|No"))
  /\ buildOptions asciiLower asciiUpper (utf16 "Yes|No")
     = [ {| EnumOption.label := utf16 "Yes"; EnumOption.value := utf16 "yes" |};
         {| EnumOption.label := utf16 "No"; EnumOption.value := utf16 "no" |} ].
Proof.
  split; [reflexivity|]. split; [reflexivity|].
  pose proof (enumeration_options asciiLower asciiUpper
                (fun s _ => eq_refl) (fun s _ => eq_refl))
    as (Hrow & _ & Hyes & _).
  split; [|exact Hyes].
  apply Hrow; [reflexivity|reflexivity|discriminate].
Defined.

(** A run with one success, one failure and one invalid row. *)
Lemma status_colours_witness :
  exists s,
    importarCSV asciiLower asciiUpper stringifyLiteral
      (answersBeforeEnd ok (Axios.Rejected rejectedFalse)) = Some s
    /\ Forall
         (fun report =>
            paintedStatuses (calls report)
            = map (fun status => (greenUnlessFailed status, status))
                (statusTexts (calls report))
            /\ ~ In (fillColor (utf16 "orange")) (calls report))
         (reports s).
Proof.
  eexists. split; [reflexivity|].
  eapply Forall_impl;
    [|exact (proj1 (status_colours asciiLower asciiUpper stringifyLiteral
                      (answersBeforeEnd ok (Axios.Rejected rejectedFalse)) _
                      eq_refl))].
  intros report (Hpaint & Horange & _). split; assumption.
Defined.

(** Three rows, one answer still awaited, then an ['error'] of the
    parser. *)
Lemma accumulator_length_witness :
  let events :=
    [ EmitData rowContact t1; EmitData rowLead t1; EmitData rowDeal t1;
      PostSettled 1 ok t2; EmitError CsvParser (utf16 "Unexpected end") t3 ] in
  exists s,
    importarCSV asciiLower asciiUpper stringifyLiteral events = Some s
    /\ length (creationResults s) = 3
    /\ length (inflight s) = 1
    /\ length (creationResults s)
       = (rowsEmitted events - length (inflight s)) + parserErrors events.
Proof.
  intros events. eexists. split; [reflexivity|].
  split; [reflexivity|]. split; [reflexivity|].
  exact (proj1 (accumulator_length asciiLower asciiUpper stringifyLiteral
                  events _ eq_refl)).
Defined.

(** The file stream fails after one row. *)
Lemma read_error_crashes_witness :
  exists s s',
    importarCSV asciiLower asciiUpper stringifyLiteral
      [EmitData rowLead t1] = Some s
    /\ phase s = Streaming
    /\ importarCSV asciiLower asciiUpper stringifyLiteral
         ([EmitData rowLead t1]
          ++ [EmitError ReadStream (utf16 "ENOENT: no such file") t2])
       = Some s'
    /\ phase s' = Crashed
    /\ reports s' = [].
Proof.
  eexists.
  destruct (read_error_crashes asciiLower asciiUpper stringifyLiteral
              [EmitData rowLead t1] _ (utf16 "ENOENT: no such file") t2
              eq_refl eq_refl)
    as (s' & Hrun & Hph & _ & Hrep & _).
  exists s'. repeat split; assumption.
Defined.

(** The three-line file, both answers successful and late. *)
Lemma report_misses_rows_in_flight_witness :
  (forall s, isAscii s = true -> asciiLower s = asciiLower s)
  /\ exists s,
       importarCSV asciiLower asciiUpper stringifyLiteral
         (endBeforeAnswers ok ok) = Some s
       /\ length (creationResults s) = 3
       /\ reports s = [ generatePdfReport [ignored asciiLower rowLead t1] t2 ].
Proof.
  split; [reflexivity|].
  destruct (report_misses_rows_in_flight asciiLower asciiUpper
              stringifyLiteral (fun s _ => eq_refl) ok ok)
    as (s & Hrun & Hres & Hrep).
  exists s. split; [exact Hrun|]. split; [|exact Hrep].
  rewrite Hres. reflexivity.
Defined.

(* ================================================================== *)
(** ** Further properties of the event loop *)
(* ================================================================== *)

Section LoopFurther.

Variable toLowerCase toUpperCase : jsstring -> jsstring.
Variable JSON_stringify : Value -> jsstring.

Local Abbreviation submitted := (submitted JSON_stringify).
Local Abbreviation accepted := (accepted toLowerCase).
Local Abbreviation step := (step toLowerCase toUpperCase JSON_stringify).
Local Abbreviation run := (run toLowerCase toUpperCase JSON_stringify).
Local Abbreviation importarCSV :=
  (importarCSV toLowerCase toUpperCase JSON_stringify).
Local Abbreviation Transition :=
  (Transition toLowerCase toUpperCase JSON_stringify).
Local Abbreviation awaited := (awaited JSON_stringify).
Local Abbreviation requestOf := (requestOf toLowerCase toUpperCase).
Local Abbreviation postedRows := (postedRows toLowerCase).

Lemma run_awaited events s :
  importarCSV events = Some s -> Forall awaited (inflight s).
Proof.
  intros Hrun.
  apply (run_preserves toLowerCase toUpperCase JSON_stringify
           (fun _ => True))
    with (events := events) (s := initial) (s' := s) in Hrun;
    [tauto|auto|constructor|exact I].
Qed.

Lemma Transition_extends s ev s' :
  Transition s ev s' ->
  (exists more, creationResults s' = creationResults s ++ more)
  /\ (exists more, reports s' = reports s ++ more).
Proof.
  intros [row now _ _|row now p _ _ _ _ _|now _|message now _
         |message now _|i outcome now p objectType _ _];
    cbn [creationResults reports]; split;
    solve [eexists; reflexivity | exists []; symmetry; apply app_nil_r].
Qed.

Lemma run_extends events : forall s s',
  Forall awaited (inflight s) ->
  run s events = Some s' ->
  (exists more, creationResults s' = creationResults s ++ more)
  /\ (exists more, reports s' = reports s ++ more).
Proof.
  induction events as [|ev events IH]; intros s s' Hin; cbn [Script.run].
  - intros [= <-]. split; exists []; symmetry; apply app_nil_r.
  - destruct (step s ev) as [s1|] eqn:Hs1; [|discriminate].
    pose proof (step_Transition _ _ _ _ _ _ Hin Hs1) as HT.
    intros Hrun.
    apply IH in Hrun; [|eapply Transition_awaited; eauto].
    destruct (Transition_extends _ _ _ HT) as [[m1 H1] [m2 H2]].
    destruct Hrun as [[n1 K1] [n2 K2]].
    split; [exists (m1 ++ n1)|exists (m2 ++ n2)].
    + rewrite K1, H1, app_assoc. reflexivity.
    + rewrite K2, H2, app_assoc. reflexivity.
Qed.

(** X6.  The accumulator and the list of reports only grow.  Whatever happens
    after a point of a run, the records and the reports of that point are
    still there, unchanged and in the same order, followed by the later
    ones. *)
Theorem accumulator_append_only (before later : list Event) (s s' : State) :
  importarCSV before = Some s ->
  importarCSV (before ++ later) = Some s' ->
  (exists more, creationResults s' = creationResults s ++ more)
  /\ (exists more, reports s' = reports s ++ more).
Proof.
  intros Hs Hs'. unfold Script.importarCSV in Hs'.
  rewrite run_app in Hs'. unfold Script.importarCSV in Hs.
  pose proof (run_awaited _ _ Hs) as Hin.
  rewrite Hs in Hs'. now apply run_extends with (events := later).
Qed.

Lemma run_snoc events ev s :
  importarCSV (events ++ [ev]) = Some s ->
  exists s1, importarCSV events = Some s1 /\ step s1 ev = Some s.
Proof.
  unfold Script.importarCSV. rewrite run_app.
  destruct (run initial events) as [s1|]; [|discriminate].
  cbn [Script.run]. destruct (step s1 ev) as [s2|] eqn:Hs; [|discriminate].
  intros [= <-]. exists s1. auto.
Qed.

(** X7.  A run writes at most one report, and writes it when the parser
    ends or fails: none while rows are being read or after a crash; exactly
    one once the parser is done.  That report is written by the event that
    ended the parser, over the records the accumulator held at that event
    (with the critical-error record when the parser failed), and these
    records stay the first records of the accumulator. *)
Theorem one_report_per_run (events : list Event) (s : State) :
  importarCSV events = Some s ->
  match phase s with
  | Ended =>
      exists before ending after s0 listed now,
        events = before ++ ending :: after
        /\ importarCSV before = Some s0
        /\ (ending = EmitEnd now /\ listed = creationResults s0
            \/ exists message,
                 ending = EmitError CsvParser message now
                 /\ listed = creationResults s0 ++ [critical message now])
        /\ reports s = [generatePdfReport listed now]
        /\ exists later, creationResults s = listed ++ later
  | Streaming | Crashed => reports s = []
  end.
Proof.
  revert s. induction events as [|ev events IH] using rev_ind; intros s Hrun.
  - injection Hrun as <-. reflexivity.
  - apply run_snoc in Hrun as (s1 & Hrun1 & Hstep).
    pose proof (run_awaited _ _ Hrun1) as Hin.
    specialize (IH s1 Hrun1).
    destruct (step_Transition _ _ _ _ _ _ Hin Hstep)
      as [row now H _|row now p H _ _ _ _|now H|message now H
         |message now H|i outcome now p objectType Hne _];
      try (rewrite H in IH); cbn [phase reports creationResults]; auto.
    + exists events, (EmitEnd now), [], s1, (creationResults s1), now.
      rewrite IH. repeat split; auto.
      exists []. symmetry; apply app_nil_r.
    + exists events, (EmitError CsvParser message now), [], s1,
        (creationResults s1 ++ [critical message now]), now.
      rewrite IH. repeat split; auto.
      * right. exists message. auto.
      * exists []. symmetry; apply app_nil_r.
    + destruct (phase s1); auto.
      destruct IH
        as (before & ending & after & s0 & listed & now' & Hev & Hs0 & Hend
            & Hrep & later & Hres).
      exists before, ending, (after ++ [PostSettled i outcome now]), s0,
        listed, now'.
      split; [rewrite Hev, <- app_assoc; reflexivity|].
      split; [exact Hs0|]. split; [exact Hend|]. split; [exact Hrep|].
      exists (later ++ [submitted objectType (data p) outcome now]).
      rewrite Hres, app_assoc. reflexivity.
Qed.

Lemma run_posted events : forall s s',
  Forall awaited (inflight s) ->
  run s events = Some s' ->
  posted s' = posted s ++ map requestOf (postedRows events).
Proof.
  unfold postedRows, rowsOf.
  induction events as [|ev events IH]; intros s s' Hin; cbn [Script.run].
  - intros [= <-]. cbn. symmetry; apply app_nil_r.
  - destruct (step s ev) as [s1|] eqn:Hs1; [|discriminate].
    pose proof (step_Transition _ _ _ _ _ _ Hin Hs1) as HT.
    intros Hrun.
    apply IH in Hrun; [|eapply Transition_awaited; eauto].
    rewrite Hrun. cbn [flat_map]. rewrite filter_app, map_app, app_assoc.
    f_equal.
    destruct HT as [row now _ Hacc|row now p _ Hacc Hu Hd _|now _|message now _
                   |message now _|i outcome now p objectType _ _];
      cbn [posted filter map app]; try rewrite Hacc; cbn [map];
      try (symmetry; apply app_nil_r).
    rewrite Hu, Hd. reflexivity.
Qed.

(** X5.  The requests a run issues are those of the accepted rows, one each, in
    the order the rows were read, whatever the order in which answers
    arrive; none of them goes to an undefined endpoint, and the requests in
    flight are among them. *)
Theorem posts_follow_rows (events : list Event) (s : State) :
  importarCSV events = Some s ->
  posted s = map requestOf (postedRows events)
  /\ Forall (fun request => truthy (fst request) = true) (posted s)
  /\ length (inflight s) <= length (posted s).
Proof.
  intros Hrun.
  assert (Hp : posted s = map requestOf (postedRows events)).
  { unfold Script.importarCSV in Hrun.
    apply run_posted in Hrun; [|constructor]. exact Hrun. }
  split; [exact Hp|]. split.
  - rewrite Hp. apply Forall_forall. intros request Hin.
    apply in_map_iff in Hin as (row & <- & Hrow).
    unfold postedRows in Hrow. apply filter_In in Hrow as [_ Hacc].
    unfold accepted in Hacc. apply andb_prop in Hacc as [_ Hacc].
    exact Hacc.
  - apply (run_preserves toLowerCase toUpperCase JSON_stringify
             (fun s => length (inflight s) <= length (posted s)))
      with (events := events) (s := initial) (s' := s) in Hrun.
    + tauto.
    + intros s0 ev s1 _ H0
        [row now _ _|row now p _ _ _ _ _|now _|message now _
        |message now _|i outcome now p objectType _ Hp'];
        cbn [inflight posted]; rewrite ?length_app; cbn [length]; try lia.
      pose proof (removeAt_length _ _ _ Hp'). lia.
    + constructor.
    + cbn. lia.
Qed.

Lemma drain (now : Date.t) (outcomes : list Axios.Settled) : forall s,
  Forall awaited (inflight s) ->
  phase s <> Crashed ->
  length outcomes = length (inflight s) ->
  exists s',
    run s (settleAll outcomes now) = Some s'
    /\ inflight s' = []
    /\ length (creationResults s')
       = length (creationResults s) + length outcomes
    /\ reports s' = reports s
    /\ phase s' = phase s.
Proof.
  induction outcomes as [|outcome outcomes IH]; intros s Hin Hph Hlen.
  - exists s. cbn in *. destruct (inflight s); [|discriminate].
    repeat split; auto.
  - destruct (inflight s) as [|p rest] eqn:Hfl; [discriminate|].
    cbn [settleAll map Script.run].
    rewrite (step_settled _ _ _ s 0 outcome now p)
      by (auto; rewrite Hfl; reflexivity).
    inversion Hin as [|? ? [objectType Hp] Hrest]; subst.
    rewrite Hp, Hfl. cbn [removeAt firstn skipn app].
    match goal with
    | |- context [run ?s1 _] =>
        destruct (IH s1) as (s' & Hrun & Hnil & Hcount & Hrep & Hph');
        [exact Hrest|exact Hph|cbn in *; lia|]
    end.
    exists s'. split; [exact Hrun|]. split; [exact Hnil|].
    cbn [creationResults reports phase] in *.
    rewrite length_app in Hcount. cbn [length] in *.
    repeat split; auto; lia.
Qed.

(** X8.  Once every request in flight has settled, in a process that has not
    crashed, the accumulator is complete: one record for every row read and
    one for the parser's ['error'] if there was one, whether or not the
    report was written before. *)
Theorem accumulator_complete_when_settled (events : list Event) (s : State)
  (outcomes : list Axios.Settled) (now : Date.t) :
  importarCSV events = Some s ->
  phase s <> Crashed ->
  length outcomes = length (inflight s) ->
  exists s',
    importarCSV (events ++ settleAll outcomes now) = Some s'
    /\ inflight s' = []
    /\ length (creationResults s')
       = rowsEmitted events + parserErrors events
    /\ reports s' = reports s.
Proof.
  intros Hrun Hph Hlen.
  pose proof (run_awaited _ _ Hrun) as Hin.
  destruct (drain now outcomes s Hin Hph Hlen)
    as (s' & Hrun' & Hnil & Hcount & Hrep & _).
  exists s'. unfold Script.importarCSV in *. rewrite run_app, Hrun.
  split; [exact Hrun'|]. split; [exact Hnil|]. split; [|exact Hrep].
  apply run_count in Hrun; [|constructor].
  cbn [initial creationResults inflight phase length budget] in Hrun.
  lia.
Qed.

End LoopFurther.

(* ================================================================== *)
(** ** Further properties of the row handler *)
(* ================================================================== *)

Lemma trimStart_decompose (s : jsstring) :
  exists before,
    s = before ++ trimStart s /\ forallb isWhiteSpace before = true.
Proof.
  induction s as [|c s (before & Hs & Hws)]; [exists []; auto|].
  cbn [trimStart]. destruct (isWhiteSpace c) eqn:Hc.
  - exists (c :: before). cbn [app forallb]. rewrite Hc, Hws.
    split; [congruence|reflexivity].
  - exists []. auto.
Qed.

Lemma trimStart_head (s : jsstring) :
  startsWithWhiteSpace (trimStart s) = false.
Proof.
  induction s as [|c s IH]; [reflexivity|].
  cbn [trimStart]. destruct (isWhiteSpace c) eqn:Hc; [exact IH|exact Hc].
Qed.

Lemma forallb_rev (f : N -> bool) (l : list N) :
  forallb f (rev l) = forallb f l.
Proof.
  induction l as [|x l IH]; [reflexivity|].
  cbn [rev forallb]. rewrite forallb_app, IH. cbn [forallb].
  rewrite andb_true_r. apply andb_comm.
Qed.

Lemma trimEnd_decompose (s : jsstring) :
  exists after,
    s = trimEnd s ++ after /\ forallb isWhiteSpace after = true.
Proof.
  destruct (trimStart_decompose (rev s)) as (before & Hs & Hws).
  exists (rev before). split.
  - unfold trimEnd. rewrite <- rev_app_distr, <- Hs.
    symmetry; apply rev_involutive.
  - rewrite forallb_rev. exact Hws.
Qed.

Lemma trim_stripped (raw : jsstring) : strippedOf (Some raw) (Some (trim raw)).
Proof.
  unfold strippedOf, trim.
  destruct (trimStart_decompose raw) as (before & Hb & Hwb).
  destruct (trimEnd_decompose (trimStart raw)) as (after & Ha & Hwa).
  split; [|split].
  - exists before, after. rewrite <- Ha. auto.
  - pose proof (trimStart_head raw) as Hh. rewrite Ha in Hh.
    destruct (trimEnd (trimStart raw)); [reflexivity|exact Hh].
  - unfold endsWithWhiteSpace, trimEnd. rewrite rev_involutive.
    apply trimStart_head.
Qed.

Lemma trim_opt_stripped (cell : option jsstring) :
  strippedOf cell (trim_opt cell).
Proof. destruct cell; [apply trim_stripped|exact I]. Qed.

Lemma trim_blank (raw : jsstring) :
  forallb isWhiteSpace raw = true -> trim raw = [].
Proof.
  intros H. unfold trim.
  replace (trimStart raw) with (@nil N); [reflexivity|].
  induction raw as [|c raw IH]; [reflexivity|].
  cbn [forallb trimStart] in *. apply andb_prop in H as [-> H]. auto.
Qed.

Lemma isAscii_trimStart (s : jsstring) :
  isAscii s = true -> isAscii (trimStart s) = true.
Proof.
  unfold isAscii. induction s as [|c s IH]; [reflexivity|].
  intros H. cbn [trimStart]. destruct (isWhiteSpace c); [|exact H].
  cbn [forallb] in H. apply andb_prop in H as [_ H]. auto.
Qed.

Lemma isAscii_trim (s : jsstring) : isAscii s = true -> isAscii (trim s) = true.
Proof.
  intros H. unfold trim, trimEnd, isAscii. rewrite forallb_rev.
  apply isAscii_trimStart. unfold isAscii. rewrite forallb_rev.
  now apply isAscii_trimStart.
Qed.

Lemma isAscii_split (s : jsstring) (sep : N) :
  isAscii s = true -> Forall (fun piece => isAscii piece = true) (split s sep).
Proof.
  unfold isAscii. induction s as [|c s IH]; intros H; cbn [split].
  - repeat constructor.
  - cbn [forallb] in H. apply andb_prop in H as [Hc H].
    specialize (IH H). destruct (c =? sep)%N.
    + constructor; [reflexivity|exact IH].
    + destruct (split s sep) as [|p ps].
      * repeat constructor. cbn [forallb]. rewrite Hc. reflexivity.
      * inversion IH as [|? ? Hp Hps]; subst. constructor; [|exact Hps].
        cbn [forallb]. rewrite Hc. exact Hp.
Qed.

Lemma asciiLower_asciiUpper (s : jsstring) :
  asciiLower (asciiUpper s) = asciiLower s.
Proof.
  unfold asciiLower, asciiUpper. rewrite map_map. apply map_ext.
  intros c.
  destruct (N.leb_spec 97 c), (N.leb_spec c 122); cbn [andb];
    repeat match goal with
           | |- context [(?a <=? ?b)%N] => destruct (N.leb_spec a b)
           end; cbn [andb]; lia.
Qed.

Section HandlerFurther.

Variable toLowerCase toUpperCase : jsstring -> jsstring.
Variable JSON_stringify : Value -> jsstring.

Local Abbreviation buildOptions := (buildOptions toLowerCase toUpperCase).
Local Abbreviation propriedade := (propriedade toLowerCase toUpperCase).
Local Abbreviation onData :=
  (onData toLowerCase toUpperCase JSON_stringify).
Local Abbreviation accepted := (accepted toLowerCase).
Local Abbreviation key := (key toLowerCase).
Local Abbreviation ignored := (ignored toLowerCase).
Local Abbreviation passes := (passes toLowerCase).
Local Abbreviation normalizedObjectType :=
  (normalizedObjectType toLowerCase).

Lemma Get_inherited_only (k : jsstring) :
  supported k = false -> inherited k = true ->
  forall u, Get BASE_URLS k <> VString u.
Proof.
  unfold supported, inherited.
  rewrite !(eqb_sym k), (eqb_sym (utf16 "__proto__") k).
  unfold Get, BASE_URLS, ObjectPrototype.
  cbn [assoc map existsb fst].
  repeat match goal with
         | |- context [eqb ?a k] =>
             destruct (eqb a k); [cbn [orb]; intros; discriminate|]
         end.
  destruct (eqb k _); cbn [orb]; intros; discriminate.
Qed.

(** X1.  The object-type check decides by the normalized key alone.  A row is
    posted exactly when the key is not blank and is one of the three keys of
    [BASE_URLS] or a name [BASE_URLS] inherits; every other row is recorded
    as invalid and nothing is posted.  The endpoint of a supported key is a
    non-empty string; for an inherited name the request is issued with a
    value that is not a string. *)
Theorem validation_by_key (row : Row.t) (now : Date.t)
  (results : list Result.t) :
  (passes row = true ->
   exists resume,
     onData row now results
     = AwaitPost (Get BASE_URLS (key row)) (propriedade row) resume)
  /\ (passes row = false ->
      onData row now results = Completed (results ++ [ignored row now]))
  /\ (supported (key row) = true ->
      exists u, Get BASE_URLS (key row) = VString u /\ u <> [])
  /\ (supported (key row) = false -> inherited (key row) = true ->
      forall u, Get BASE_URLS (key row) <> VString u).
Proof.
  assert (Hpass : passes row = accepted row).
  { unfold passes, accepted. now rewrite truthy_Get_BASE_URLS. }
  rewrite Hpass. split; [|split; [|split]].
  - intros Hacc. rewrite (onData_accepted _ _ _ _ _ _ Hacc).
    destruct (createProperty_resume JSON_stringify (key row)
                (propriedade row)) as (k & -> & _).
    exists k; reflexivity.
  - apply onData_ignored.
  - apply Get_supported.
  - apply Get_inherited_only.
Qed.

(** X3.  Every string cell of the definition is the row's cell without the
    white space around it: the text between is kept as it is, and the value
    neither starts nor ends with white space; a missing cell stays
    missing. *)
Theorem definition_cells_are_trimmed (row : Row.t) :
  strippedOf (Row.name row) (Property.name (propriedade row))
  /\ strippedOf (Row.label row) (Property.label (propriedade row))
  /\ strippedOf (Row.description row)
       (Property.description (propriedade row))
  /\ strippedOf (Row.groupName row) (Property.groupName (propriedade row))
  /\ strippedOf (Row.type row) (Property.type (propriedade row))
  /\ strippedOf (Row.fieldType row) (Property.fieldType (propriedade row))
  /\ Property.formField (propriedade row) = true.
Proof.
  unfold Script.propriedade; cbn.
  repeat split; apply trim_opt_stripped.
Qed.

Hypothesis toLowerCase_ascii :
  forall s, isAscii s = true -> toLowerCase s = asciiLower s.
Hypothesis toUpperCase_ascii :
  forall s, isAscii s = true -> toUpperCase s = asciiUpper s.

(** X2.  A row whose object type is missing or blank is recorded as invalid
    under the object type ['N/A'], and nothing is posted; the message
    quotes [undefined] for a missing cell and nothing for a blank one.  A
    missing or blank name or label is written ['N/A'] as well. *)
Theorem blank_object_type_is_ignored (row : Row.t) (now : Date.t)
  (results : list Result.t) :
  blank (Row.objectType row) = true ->
  exists r,
    onData row now results = Completed (results ++ [r])
    /\ Result.objectType r = utf16 "N/A"
    /\ Result.status r = ObjetoInvalido
    /\ Result.errorMessage r
       = utf16 "Objeto '"
         ++ match Row.objectType row with
            | None => utf16 "undefined"
            | Some _ => []
            end
         ++ utf16 "' não reconhecido ou linha CSV incompleta."
    /\ (blank (Row.name row) = true -> Result.name r = Some (utf16 "N/A"))
    /\ (blank (Row.label row) = true -> Result.label r = Some (utf16 "N/A")).
Proof.
  intros Hblank.
  assert (Hnorm : normalizedObjectType row
                  = option_map (fun _ => []) (Row.objectType row)).
  { unfold normalizedObjectType, trim_opt.
    destruct (Row.objectType row) as [raw|]; [|reflexivity].
    cbn [option_map blank] in *. rewrite (trim_blank _ Hblank).
    rewrite toLowerCase_ascii by reflexivity. reflexivity. }
  assert (Hacc : accepted row = false).
  { unfold accepted. rewrite Hnorm.
    destruct (Row.objectType row); reflexivity. }
  exists (ignored row now).
  split; [now apply onData_ignored|].
  unfold ignored; cbn [Result.objectType Result.status Result.errorMessage
                         Result.name Result.label].
  rewrite Hnorm.
  split; [destruct (Row.objectType row); reflexivity|].
  split; [reflexivity|].
  split; [destruct (Row.objectType row); reflexivity|].
  split; intros H.
  - destruct (Row.name row) as [raw|]; [|reflexivity].
    cbn [trim_opt option_map blank] in *. now rewrite (trim_blank _ H).
  - destruct (Row.label row) as [raw|]; [|reflexivity].
    cbn [trim_opt option_map blank] in *. now rewrite (trim_blank _ H).
Qed.

(** X4.  For an options cell written in ASCII, label and value of every option
    name the same text: the value is the label in lower case. *)
Theorem option_value_is_lowercased_label (cell : jsstring) :
  isAscii cell = true ->
  Forall (fun o => asciiLower (EnumOption.label o) = EnumOption.value o)
    (buildOptions cell).
Proof.
  intros Hcell. unfold Script.buildOptions. apply Forall_map.
  eapply Forall_impl; [|exact (isAscii_split cell bar Hcell)].
  intros piece Hpiece. cbn [EnumOption.label EnumOption.value].
  pose proof (isAscii_trim _ Hpiece) as Ht.
  rewrite (toLowerCase_ascii _ Ht).
  destruct (trim piece) as [|c rest].
  - cbn [charAt nth_error slice skipn].
    rewrite toUpperCase_ascii by reflexivity. reflexivity.
  - cbn [charAt nth_error slice skipn].
    rewrite toUpperCase_ascii.
    + unfold asciiLower at 1. rewrite map_app.
      fold (asciiLower (asciiUpper [c])). rewrite asciiLower_asciiUpper.
      reflexivity.
    + unfold isAscii in *. cbn [forallb] in *.
      apply andb_prop in Ht as [-> _]. reflexivity.
Qed.

End HandlerFurther.

(* ================================================================== *)
(** ** Further properties of the report writer *)
(* ================================================================== *)

Lemma renderResult_no_placeholder (r : Result.t) :
  ~ In (text placeholder AlignCenter) (renderResult r).
Proof.
  unfold renderResult.
  destruct (eqb (Result.errorMessage r) []); cbn [app In];
    intros H; repeat (destruct H as [H|H]; [discriminate H|]); exact H.
Qed.

(** X9.  The report lists the records it is given, all of them and in their
    order: the status texts it writes are the statuses of the records, one
    after the other.  The placeholder is written exactly when there is no
    record. *)
Theorem report_lists_every_record (results : list Result.t) (now : Date.t) :
  statusTexts (calls (generatePdfReport results now))
  = map Result.status results
  /\ (In (text placeholder AlignCenter) (calls (generatePdfReport results now))
      <-> results = []).
Proof.
  unfold generatePdfReport; cbn [calls]. split.
  - destruct results as [|r results]; [reflexivity|].
    rewrite !statusTexts_app, statusTexts_blocks.
    change (statusTexts [end_]) with (@nil jsstring).
    rewrite app_nil_r. reflexivity.
  - destruct results as [|r results]; split; auto.
    + intros _. cbn [app In]. do 7 right. left. reflexivity.
    + intros H. exfalso. cbn [app In] in H.
      destruct H as [H|[H|[H|[H|[H|[H|H]]]]]]; try discriminate H.
      apply in_app_or in H as [H|[H|[]]]; [|discriminate H].
      apply in_flat_map in H as (r' & _ & H).
      exact (renderResult_no_placeholder r' H).
    + discriminate.
Qed.

Lemma replaceAll_absent (s : jsstring) (pat by_ : N) :
  pat <> by_ -> ~ In pat (replaceAll s pat by_).
Proof.
  intros Hne H. unfold replaceAll in H.
  apply in_map_iff in H as (c & Hc & _).
  destruct (N.eqb_spec c pat); congruence.
Qed.

Lemma replaceAll_keeps_absent (s : jsstring) (c pat by_ : N) :
  c <> by_ -> ~ In c s -> ~ In c (replaceAll s pat by_).
Proof.
  intros Hne Hs H. unfold replaceAll in H.
  apply in_map_iff in H as (x & Hx & Hin).
  destruct (x =? pat)%N; [congruence|]. subst. auto.
Qed.

Lemma replaceAll_twice (s : jsstring) :
  replaceAll (replaceAll s colon hyphen) dot underscore
  = map (fun c =>
           if (c =? colon)%N then hyphen
           else if (c =? dot)%N then underscore
           else c)
      s.
Proof.
  unfold replaceAll. rewrite map_map. apply map_ext. intros c.
  destruct (c =? colon)%N; reflexivity.
Qed.

(** X10.  The name of the report file depends on the clock only.  It is
    the fixed prefix, the ISO time with every [:] turned into [-], every
    [.] into [_] and every other code unit kept, and the extension: it
    holds no [:], and no [.] besides the one of [.pdf].  Two readings of the
    clock that give the same name agree wherever one of them has a digit:
    ISO times that differ in a digit give different names. *)
Theorem report_filename (results : list Result.t) (now : Date.t) :
  filename (generatePdfReport results now)
  = filename (generatePdfReport [] now)
  /\ (exists stamp,
         filename (generatePdfReport results now)
         = utf16 "relatorio_importacao_propriedades_" ++ stamp ++ utf16 ".pdf"
         /\ stamp
            = map (fun c =>
                     if (c =? colon)%N then hyphen
                     else if (c =? dot)%N then underscore
                     else c)
                (Date.toISOString now)
         /\ length stamp = length (Date.toISOString now)
         /\ ~ In colon stamp /\ ~ In dot stamp)
  /\ ~ In colon (filename (generatePdfReport results now))
  /\ (forall now' i c c',
         filename (generatePdfReport results now)
         = filename (generatePdfReport results now') ->
         nth_error (Date.toISOString now) i = Some c ->
         nth_error (Date.toISOString now') i = Some c' ->
         (48 <= c <= 57)%N -> c' = c).
Proof.
  unfold generatePdfReport; cbn [filename].
  assert (Hcolon : ~ In colon
                     (replaceAll (replaceAll (Date.toISOString now)
                                    colon hyphen) dot underscore)).
  { apply replaceAll_keeps_absent; [discriminate|].
    apply replaceAll_absent. discriminate. }
  split; [reflexivity|]. split; [|split].
  - eexists. split; [reflexivity|]. split; [apply replaceAll_twice|]. split.
    + unfold replaceAll. now rewrite !length_map.
    + split; [exact Hcolon|]. apply replaceAll_absent. discriminate.
  - intros H. apply in_app_or in H as [H|H].
    + revert H. vm_compute. intros H.
      repeat (destruct H as [H|H]; [discriminate H|]). exact H.
    + apply in_app_or in H as [H|H]; [exact (Hcolon H)|].
      revert H. vm_compute. intros H.
      repeat (destruct H as [H|H]; [discriminate H|]). exact H.
  - intros now' i c c' Heq Hc Hc' Hdigit.
    apply app_inv_head in Heq.
    rewrite !replaceAll_twice in Heq.
    assert (Hlen : length (Date.toISOString now)
                   = length (Date.toISOString now')).
    { apply (f_equal (@length N)) in Heq.
      rewrite !length_app, !length_map in Heq. lia. }
    apply app_inv_tail in Heq.
    apply (f_equal (fun l => nth_error l i)) in Heq.
    rewrite !nth_error_map, Hc, Hc' in Heq. cbn [option_map] in Heq.
    injection Heq as Heq. unfold colon, dot, hyphen, underscore in Heq.
    destruct (N.eqb_spec c 58), (N.eqb_spec c 46),
      (N.eqb_spec c' 58), (N.eqb_spec c' 46); lia.
Qed.

Lemma errorLines_app (a b : list DocCall) :
  errorLines (a ++ b) = errorLines a ++ errorLines b.
Proof. unfold errorLines. apply flat_map_app. Qed.

Lemma startsWith_app (prefix s : jsstring) :
  startsWith (prefix ++ s) prefix = true.
Proof.
  induction prefix as [|p prefix IH]; [destruct s; reflexivity|].
  cbn [app startsWith]. rewrite N.eqb_refl. exact IH.
Qed.

Lemma errorLines_renderResult (r : Result.t) :
  errorLines (renderResult r)
  = if eqb (Result.errorMessage r) [] then []
    else [utf16 "Mensagem de Erro: " ++ Result.errorMessage r].
Proof.
  unfold renderResult.
  destruct (eqb (Result.errorMessage r) []);
    cbn [app errorLines flat_map];
    rewrite ?startsWith_app; reflexivity.
Qed.

Section ReportFurther.

Variable toLowerCase : jsstring -> jsstring.
Variable JSON_stringify : Value -> jsstring.

Local Abbreviation ignored := (ignored toLowerCase).
Local Abbreviation submitted := (submitted JSON_stringify).

(** X11.  The report writes a line [Mensagem de Erro: ...] for exactly the
    records that carry a message, in their order.  An invalid row and a
    parser error always carry one; a successful submission never does. *)
Theorem report_error_lines (results : list Result.t) (now : Date.t) :
  errorLines (calls (generatePdfReport results now))
  = flat_map
      (fun r =>
         if eqb (Result.errorMessage r) [] then []
         else [utf16 "Mensagem de Erro: " ++ Result.errorMessage r])
      results
  /\ (forall row now', Result.errorMessage (ignored row now') <> [])
  /\ (forall message now', Result.errorMessage (critical message now') <> [])
  /\ (forall objectType data response now',
         Result.errorMessage
           (submitted objectType data (Axios.Fulfilled response) now')
         = []).
Proof.
  split; [|split; [|split]].
  - unfold generatePdfReport; cbn [calls].
    destruct results as [|r0 results0]; [reflexivity|].
    rewrite !errorLines_app.
    replace (errorLines [end_]) with (@nil jsstring) by reflexivity.
    rewrite app_nil_r.
    match goal with
    | |- errorLines ?header ++ _ = _ =>
        replace (errorLines header) with (@nil jsstring) by reflexivity
    end.
    cbn [app]. generalize (r0 :: results0). intros results.
    induction results as [|r results IH]; [reflexivity|].
    cbn [flat_map]. rewrite errorLines_app, errorLines_renderResult, IH.
    reflexivity.
  - intros row now'. unfold ignored; cbn [Result.errorMessage].
    vm_compute. discriminate.
  - intros message now'. unfold critical; cbn [Result.errorMessage].
    vm_compute. discriminate.
  - reflexivity.
Qed.

End ReportFurther.

(* ================================================================== *)
(** ** The further theorems at work on concrete inputs *)
(* ================================================================== *)

(** One invalid row, then the end of the stream. *)
Lemma accumulator_append_only_witness :
  exists s s',
    importarCSV asciiLower asciiUpper stringifyLiteral
      [EmitData rowLead t1] = Some s
    /\ importarCSV asciiLower asciiUpper stringifyLiteral
         ([EmitData rowLead t1] ++ [EmitEnd t2]) = Some s'
    /\ (exists more, creationResults s' = creationResults s ++ more)
    /\ (exists more, reports s' = reports s ++ more).
Proof.
  eexists. eexists. split; [reflexivity|]. split; [reflexivity|].
  exact (accumulator_append_only asciiLower asciiUpper stringifyLiteral
           [EmitData rowLead t1] [EmitEnd t2] _ _ eq_refl eq_refl).
Defined.

(** The three-line file with late answers: the one report is written by
    the ['end'] event over the one record held then. *)
Lemma one_report_per_run_witness :
  exists s,
    importarCSV asciiLower asciiUpper stringifyLiteral
      (endBeforeAnswers ok ok) = Some s
    /\ phase s = Ended
    /\ exists before ending after s0 listed now,
         endBeforeAnswers ok ok = before ++ ending :: after
         /\ importarCSV asciiLower asciiUpper stringifyLiteral before
            = Some s0
         /\ (ending = EmitEnd now /\ listed = creationResults s0
             \/ exists message,
                  ending = EmitError CsvParser message now
                  /\ listed = creationResults s0 ++ [critical message now])
         /\ reports s = [generatePdfReport listed now]
         /\ exists later, creationResults s = listed ++ later.
Proof.
  eexists. split; [reflexivity|]. split; [reflexivity|].
  exact (one_report_per_run asciiLower asciiUpper stringifyLiteral
           (endBeforeAnswers ok ok) _ eq_refl).
Defined.

(** The three-line file: two requests, for the contact and the deal row. *)
Lemma posts_follow_rows_witness :
  exists s,
    importarCSV asciiLower asciiUpper stringifyLiteral
      (endBeforeAnswers ok ok) = Some s
    /\ postedRows asciiLower (endBeforeAnswers ok ok) = [rowContact; rowDeal]
    /\ posted s
       = map (requestOf asciiLower asciiUpper)
           (postedRows asciiLower (endBeforeAnswers ok ok)).
Proof.
  eexists. split; [reflexivity|]. split; [reflexivity|].
  exact (proj1 (posts_follow_rows asciiLower asciiUpper stringifyLiteral
                  (endBeforeAnswers ok ok) _ eq_refl)).
Defined.

(** The three lines and the end of the stream, then both answers. *)
Lemma accumulator_complete_when_settled_witness :
  let events :=
    [ EmitData rowContact t1; EmitData rowLead t1; EmitData rowDeal t1;
      EmitEnd t2 ] in
  exists s s',
    importarCSV asciiLower asciiUpper stringifyLiteral events = Some s
    /\ length (inflight s) = 2
    /\ importarCSV asciiLower asciiUpper stringifyLiteral
         (events ++ settleAll [ok; Axios.Rejected rejectedFalse] t3)
       = Some s'
    /\ inflight s' = []
    /\ length (creationResults s') = 3.
Proof.
  intros events. eexists.
  destruct (accumulator_complete_when_settled asciiLower asciiUpper
              stringifyLiteral events _
              [ok; Axios.Rejected rejectedFalse] t3 eq_refl)
    as (s' & Hrun & Hnil & Hcount & _);
    [discriminate|reflexivity|].
  exists s'. split; [reflexivity|]. split; [reflexivity|].
  split; [exact Hrun|]. split; [exact Hnil|exact Hcount].
Defined.

(** A row whose object type cell holds two spaces. *)
Lemma blank_object_type_is_ignored_witness :
  let row := exampleRow "  " "cor_favorita" "Cor favorita"
               "string" "text" [] in
  (forall s, isAscii s = true -> asciiLower s = asciiLower s)
  /\ blank (Row.objectType row) = true
  /\ exists r,
       onData asciiLower asciiUpper stringifyLiteral row t1 []
       = Completed ([] ++ [r])
       /\ Result.objectType r = utf16 "N/A"
       /\ Result.status r = ObjetoInvalido.
Proof.
  intros row. split; [reflexivity|]. split; [reflexivity|].
  destruct (blank_object_type_is_ignored asciiLower asciiUpper
              stringifyLiteral (fun s _ => eq_refl) row t1 [] eq_refl)
    as (r & Hr & Hot & Hst & _).
  exists r. auto.
Defined.

(** An options cell with stray spaces, mixed case and a trailing bar. *)
Lemma option_value_is_lowercased_label_witness :
  (forall s, isAscii s = true -> asciiLower s = asciiLower s)
  /\ (forall s, isAscii s = true -> asciiUpper s = asciiUpper s)
  /\ isAscii (utf16 " yes | nO|") = true
  /\ Forall (fun o => asciiLower (EnumOption.label o) = EnumOption.value o)
       (buildOptions asciiLower asciiUpper (utf16 " yes | nO|")).
Proof.
  split; [reflexivity|]. split; [reflexivity|]. split; [reflexivity|].
  exact (option_value_is_lowercased_label asciiLower asciiUpper
           (fun s _ => eq_refl) (fun s _ => eq_refl)
           (utf16 " yes | nO|") eq_refl).
Defined.
